(** * Inventory and order backend (app.py): shallow embedding and properties

    The handlers of [app.py] are embedded as functions from a store to a
    store and a response.  The store stands for the SQLAlchemy session and
    its SQLite database; an uncaught Python exception is the response
    [Crash], which Flask turns into a 500 answer. *)

From Stdlib Require Import ZArith String Ascii List Bool Lia.
From Stdlib Require Import Floats.SpecFloat.
From stdpp Require Import gmap strings list fin_maps.

Local Open Scope string_scope.
Local Open Scope Z_scope.

(** ** Python values *)

Module Py.

(** Python's [float] is IEEE binary64; [spec_float] is the Standard
    Library's exact model of it. *)
Abbreviation float := spec_float.

Definition prec : Z := 53.
Definition emax : Z := 1024.

Definition fzero : float := S754_zero false.
Definition fone : float := S754_finite false 4503599627370496 (-52).

(** The exceptions the handlers can meet. *)
Inductive exn :=
| KeyError
| TypeError
| ValueError
| OverflowError
| AttributeError
| IntegrityError
| InterfaceError
| UnmappedInstanceError.

(** The outcome of evaluating a Python expression. *)
Inductive res (A : Type) :=
| Val (a : A)
| Raise (e : exn).
Arguments Val {A} a.
Arguments Raise {A} e.

Definition bind {A B} (r : res A) (k : A -> res B) : res B :=
  match r with
  | Val a => k a
  | Raise e => Raise e
  end.

(** A value decoded from a JSON body by [request.json]. An object is a
    [dict]: its keys are distinct and kept in insertion order. *)
#[local] Unset Elimination Schemes.
Inductive json :=
| JNull
| JBool (b : bool)
| JInt (z : Z)
| JFloat (f : float)
| JStr (s : string)
| JList (l : list json)
| JObj (kvs : list (string * json)).
#[local] Set Elimination Schemes.

(** *** Strings (ASCII) *)

Definition is_upper (c : ascii) : bool :=
  let n := nat_of_ascii c in (65 <=? n)%nat && (n <=? 90)%nat.

Definition lower_char (c : ascii) : ascii :=
  if is_upper c then ascii_of_nat (nat_of_ascii c + 32) else c.

(** The strings of the model are ASCII texts: on them [lower] below is
    [str.lower]. *)
Definition is_ascii_char (c : ascii) : bool := (nat_of_ascii c <? 128)%nat.

Fixpoint ascii_only (s : string) : bool :=
  match s with
  | EmptyString => true
  | String c r => is_ascii_char c && ascii_only r
  end.

(** [str.lower()], on an ASCII text *)
Fixpoint lower (s : string) : string :=
  match s with
  | EmptyString => EmptyString
  | String c r => String (lower_char c) (lower r)
  end.

(** [sub in s] on strings *)
Fixpoint is_prefix (p s : string) : bool :=
  match p, s with
  | EmptyString, _ => true
  | String a p', String b s' => Ascii.eqb a b && is_prefix p' s'
  | String _ _, EmptyString => false
  end.

Fixpoint is_substring (p s : string) : bool :=
  is_prefix p s ||
  match s with
  | EmptyString => false
  | String _ s' => is_substring p s'
  end.

(** [str.isspace] on an ASCII character: the characters [strip] removes. *)
Definition is_space (c : ascii) : bool :=
  let n := nat_of_ascii c in
  ((9 <=? n)%nat && (n <=? 13)%nat) || ((28 <=? n)%nat && (n <=? 32)%nat).

Fixpoint lstrip (l : list ascii) : list ascii :=
  match l with
  | c :: r => if is_space c then lstrip r else l
  | [] => []
  end.

Definition strip (l : list ascii) : list ascii :=
  rev (lstrip (rev (lstrip l))).

Definition digit_val (c : ascii) : option Z :=
  let n := nat_of_ascii c in
  if (48 <=? n)%nat && (n <=? 57)%nat then Some (Z.of_nat n - 48) else None.

(** A [digitpart]: digits, with single underscores allowed between two
    digits.  [after_digit] tells whether the previous character was a
    digit; the result is the value and the number of digits read,
    accumulated from [acc] and [n]. *)
Fixpoint digitpart (l : list ascii) (after_digit : bool) (acc : Z) (n : Z)
  : option (Z * Z * list ascii) :=
  match l with
  | [] => if after_digit then Some (acc, n, []) else None
  | c :: r =>
      match digit_val c with
      | Some d => digitpart r true (10 * acc + d) (n + 1)
      | None =>
          if after_digit then
            if Ascii.eqb c "_" then
              match r with
              | c' :: _ =>
                  match digit_val c' with
                  | Some _ => digitpart r false acc n
                  | None => Some (acc, n, l)
                  end
              | [] => Some (acc, n, l)
              end
            else Some (acc, n, l)
          else None
      end
  end.

Definition read_sign (l : list ascii) : bool * list ascii :=
  match l with
  | c :: r =>
      if Ascii.eqb c "-" then (true, r)
      else if Ascii.eqb c "+" then (false, r)
      else (false, l)
  | [] => (false, [])
  end.

(** The most digits [int] takes from a string
    ([sys.int_max_str_digits]). *)
Definition int_max_str_digits : Z := 4300.

(** [int(s)] for a string, base ten. *)
Definition int_of_str (s : string) : res Z :=
  let '(neg, l) := read_sign (strip (list_ascii_of_string s)) in
  match digitpart l false 0 0 with
  | Some (v, n, []) =>
      if int_max_str_digits <? n then Raise ValueError
      else Val (if neg then - v else v)
  | _ => Raise ValueError
  end.

(** *** [float(s)] for a string *)

Definition starts_with_digit (l : list ascii) : bool :=
  match l with
  | c :: _ => match digit_val c with Some _ => true | None => false end
  | [] => false
  end.

(** [number]: an optional integer part, an optional point and fraction.
    The result is the digits read as one integer, the number of digits
    after the point, and the rest of the input. *)
Definition read_number (l : list ascii) : option (Z * Z * list ascii) :=
  if starts_with_digit l then
    match digitpart l false 0 0 with
    | Some (v, _, c :: r) =>
        if Ascii.eqb c "." then
          if starts_with_digit r then digitpart r false v 0
          else Some (v, 0, r)
        else Some (v, 0, c :: r)
    | Some (v, _, []) => Some (v, 0, [])
    | None => None
    end
  else
    match l with
    | c :: r => if Ascii.eqb c "." then digitpart r false 0 0 else None
    | [] => None
    end.

(** [exponent]: absent, or [e] or [E], a sign and a digitpart. *)
Definition read_exponent (l : list ascii) : option (Z * list ascii) :=
  match l with
  | c :: r =>
      if Ascii.eqb c "e" || Ascii.eqb c "E" then
        let '(neg, r') := read_sign r in
        match digitpart r' false 0 0 with
        | Some (v, _, rest) => Some (if neg then - v else v, rest)
        | None => None
        end
      else Some (0, l)
  | [] => Some (0, [])
  end.

(** The binary64 nearest to [m * 10 ^ e], ties to even, for [m > 0]. *)
Definition round_decimal (neg : bool) (m : positive) (e : Z) : float :=
  if 0 <=? e then
    binary_round prec emax neg (m * Z.to_pos (10 ^ e))%positive 0
  else
    let '(q, e', l) :=
      SFdiv_core_binary prec emax (Zpos m) 0 (10 ^ (- e)) 0 in
    binary_round_aux prec emax neg q e' l.

Definition float_of_str (s : string) : res float :=
  let '(neg, l) := read_sign (strip (list_ascii_of_string s)) in
  let word := lower (string_of_list_ascii l) in
  if String.eqb word "inf" || String.eqb word "infinity" then
    Val (S754_infinity neg)
  else if String.eqb word "nan" then Val S754_nan
  else
    match read_number l with
    | Some (m, nfrac, rest) =>
        match read_exponent rest with
        | Some (ex, []) =>
            match m with
            | Zpos p => Val (round_decimal neg p (ex - nfrac))
            | _ => Val (S754_zero neg)
            end
        | _ => Raise ValueError
        end
    | None => Raise ValueError
    end.

(** *** Coercions *)

(** [float(n)] for an [int]: the nearest binary64, and [OverflowError]
    when it is out of range. *)
Definition float_of_int (z : Z) : res float :=
  match binary_normalize prec emax z 0 false with
  | S754_infinity _ => Raise OverflowError
  | f => Val f
  end.

(** [int(x)] for a [float]: truncation towards zero. *)
Definition int_of_float (f : float) : res Z :=
  match f with
  | S754_zero _ => Val 0
  | S754_nan => Raise ValueError
  | S754_infinity _ => Raise OverflowError
  | S754_finite s m e =>
      let a := if 0 <=? e then Zpos m * 2 ^ e else Zpos m / 2 ^ (- e) in
      Val (if s then - a else a)
  end.

(** [float(v)] *)
Definition to_float (v : json) : res float :=
  match v with
  | JFloat f => Val f
  | JInt z => float_of_int z
  | JBool b => Val (if b then fone else fzero)
  | JStr s => float_of_str s
  | JNull | JList _ | JObj _ => Raise TypeError
  end.

(** [int(v)] *)
Definition to_int (v : json) : res Z :=
  match v with
  | JInt z => Val z
  | JBool b => Val (if b then 1 else 0)
  | JFloat f => int_of_float f
  | JStr s => int_of_str s
  | JNull | JList _ | JObj _ => Raise TypeError
  end.

(** *** Operations on decoded JSON *)

Definition is_str (key : string) (v : json) : bool :=
  match v with
  | JStr s => String.eqb s key
  | _ => false
  end.

Fixpoint assoc (key : string) (kvs : list (string * json)) : option json :=
  match kvs with
  | [] => None
  | (k, v) :: rest => if String.eqb k key then Some v else assoc key rest
  end.

(** [key in v] *)
Definition contains (v : json) (key : string) : res bool :=
  match v with
  | JObj kvs => Val (existsb (String.eqb key) (map fst kvs))
  | JList l => Val (existsb (is_str key) l)
  | JStr s => Val (is_substring key s)
  | JNull | JBool _ | JInt _ | JFloat _ => Raise TypeError
  end.

(** [v[key]] *)
Definition getitem (v : json) (key : string) : res json :=
  match v with
  | JObj kvs =>
      match assoc key kvs with
      | Some x => Val x
      | None => Raise KeyError
      end
  | _ => Raise TypeError
  end.

(** [v.keys()] *)
Definition keys (v : json) : res (list string) :=
  match v with
  | JObj kvs => Val (map fst kvs)
  | _ => Raise AttributeError
  end.

Fixpoint chars (s : string) : list json :=
  match s with
  | EmptyString => []
  | String c r => JStr (String c EmptyString) :: chars r
  end.

(** The items of [for item in v] *)
Definition iterate (v : json) : res (list json) :=
  match v with
  | JList l => Val l
  | JObj kvs => Val (map (fun kv => JStr (fst kv)) kvs)
  | JStr s => Val (chars s)
  | JNull | JBool _ | JInt _ | JFloat _ => Raise TypeError
  end.

(** [isinstance(v, bool)] *)
Definition is_bool (v : json) : option bool :=
  match v with
  | JBool b => Some b
  | _ => None
  end.

(** [x < 0] for a float [x] *)
Definition float_neg (x : float) : bool := SFltb x fzero.

(** [x >= 0] for a float [x] *)
Definition float_nonneg (x : float) : bool := SFleb fzero x.

End Py.
Import Py.

(** ** The clock *)

(** The fields of [datetime.datetime.now()] that the handlers print. *)
Record datetime := {
  year : Z;
  month : Z;
  day : Z;
  hour : Z;
  minute : Z
}.

Definition digit_char (d : Z) : ascii :=
  ascii_of_nat (48 + Z.to_nat (d mod 10)).

Definition pad2 (n : Z) : string :=
  String (digit_char (n / 10)) (String (digit_char n) EmptyString).

Definition pad4 (n : Z) : string :=
  String (digit_char (n / 1000)) (String (digit_char (n / 100)) (pad2 n)).

(** [now.strftime("%Y-%m-%d %H:%M")] *)
Definition strftime (now : datetime) : string :=
  (pad4 (year now) ++ "-" ++ pad2 (month now) ++ "-" ++ pad2 (day now)
   ++ " " ++ pad2 (hour now) ++ ":" ++ pad2 (minute now))%string.

(** ** The store *)

(** Modelled from the spec: [models.py] and [database.py] are not part of
    the sources.  The spec gives the three tables and their keys: a
    product is keyed by its name, an order by its id, a line item by its
    product name and the id of its order. *)

(** Modelled from the spec: the model [Product] of [models.py]. *)
Record Product := {
  name : string;
  price : float;
  quantity : Z
}.

(** Modelled from the spec: the model [ProductsOrder] of [models.py], a
    line item.  Its order is the one whose collection holds it;
    [po_quantity] is its [quantity]. *)
Record ProductsOrder := {
  product_name : string;
  po_quantity : Z
}.

(** Modelled from the spec: the model [Order] of [models.py].
    [customer_name] and [customer_address] are its [name] and [address],
    [order_products] is its collection [products], in stored order.  The
    text columns hold what the request gave. *)
Record Order := {
  id : Z;
  customer_name : json;
  customer_address : json;
  completed : bool;
  date_created : json;
  date_processed : json;
  order_products : list ProductsOrder
}.

(** Modelled from the spec: the persistence gateway, with point lookup,
    insert, update and delete by key. *)
Record Store := {
  products : gmap string Product;
  orders : gmap Z Order
}.

Definition set_products (ps : gmap string Product) (st : Store) : Store :=
  {| products := ps; orders := orders st |}.

Definition set_orders (os : gmap Z Order) (st : Store) : Store :=
  {| products := products st; orders := os |}.

Definition with_quantity (q : Z) (p : Product) : Product :=
  {| name := name p; price := price p; quantity := q |}.

Definition with_po_quantity (q : Z) (po : ProductsOrder) : ProductsOrder :=
  {| product_name := product_name po; po_quantity := q |}.

Definition with_products (items : list ProductsOrder) (o : Order) : Order :=
  {| id := id o; customer_name := customer_name o;
     customer_address := customer_address o; completed := completed o;
     date_created := date_created o; date_processed := date_processed o;
     order_products := items |}.

Definition mark_processed (date : string) (o : Order) : Order :=
  {| id := id o; customer_name := customer_name o;
     customer_address := customer_address o; completed := true;
     date_created := date_created o; date_processed := JStr date;
     order_products := order_products o |}.

(** Modelled from the spec: the key of a row is a string.  A key of
    another JSON type is not followed into the driver; the lookup is
    taken to fail there. *)
Definition key_of (v : json) : res string :=
  match v with
  | JStr s => Val s
  | _ => Raise InterfaceError
  end.

(** [db.session.get(Product, key)] *)
Definition session_get_product (st : Store) (key : json)
  : res (option Product) :=
  bind (key_of key) (fun s => Val (products st !! s)).

(** A text column takes any scalar; a list or an object cannot be bound
    to a statement. *)
Definition bindable (v : json) : bool :=
  match v with
  | JList _ | JObj _ => false
  | _ => true
  end.

(** The id the database gives to a new order: one more than the largest
    id in use. *)
Definition next_order_id (os : gmap Z Order) : Z :=
  1 + map_fold (fun k _ acc => Z.max k acc) 0 os.

(** [query(ProductsOrder).get((name, order_id))] within the line items of
    the order. *)
Fixpoint find_item (n : string) (items : list ProductsOrder)
  : option ProductsOrder :=
  match items with
  | [] => None
  | po :: rest =>
      if String.eqb (product_name po) n then Some po else find_item n rest
  end.

Definition get_line_item (st : Store) (n : string) (order_id : Z)
  : option ProductsOrder :=
  match orders st !! order_id with
  | Some o => find_item n (order_products o)
  | None => None
  end.

(** The primary key of the line items of one order: no product name
    twice. *)
Fixpoint distinct (l : list string) : bool :=
  match l with
  | [] => true
  | x :: r => negb (existsb (String.eqb x) r) && distinct r
  end.

(** ** Responses *)

Inductive body :=
| Text (msg : string)
| ProductJson (p : Product)
| OrderJson (o : Order).

(** An answer with its status code, or the uncaught exception that Flask
    reports as a 500. *)
Inductive response :=
| Reply (status : Z) (b : body)
| Crash (e : exn).

(** A handler runs until it returns; [Done r] is an early [return r] or
    an exception that nothing catches. *)
Inductive flow (A : Type) :=
| Next (a : A)
| Done (r : response).
Arguments Next {A} a.
Arguments Done {A} r.

Definition flow_bind {A B} (x : flow A) (k : A -> flow B) : flow B :=
  match x with
  | Next a => k a
  | Done r => Done r
  end.

Notation "x <- e ;; k" := (flow_bind e (fun x => k))
  (at level 100, e at next level, right associativity).
Notation "e ;;; k" := (flow_bind e (fun _ => k))
  (at level 100, right associativity).

(** An expression outside any [try]. *)
Definition eval {A} (r : res A) : flow A :=
  match r with
  | Val a => Next a
  | Raise e => Done (Crash e)
  end.

(** An expression inside [try: ... except ValueError: return on_error]. *)
Definition eval_try {A} (on_error : response) (r : res A) : flow A :=
  match r with
  | Val a => Next a
  | Raise ValueError => Done on_error
  | Raise e => Done (Crash e)
  end.

(** ** Product handlers *)

Definition not_found : response :=
  Reply 404 (Text "Item not found in the database").

(** [GET /api/product/<name>] *)
Definition api_get_product (n : string) (st : Store) : Store * response :=
  match products st !! lower n with
  | None => (st, not_found)
  | Some product => (st, Reply 200 (ProductJson product))
  end.

Definition missing_key (key : string) : response :=
  Reply 400 (Text ("The JSON provided is invalid (missing: " ++ key ++ ")")).

(** [for key in keys: if key not in data: return ..., 400] *)
Fixpoint require_keys (data : json) (ks : list string) : flow unit :=
  match ks with
  | [] => Next tt
  | key :: rest =>
      present <- eval (contains data key);;
      if present then require_keys data rest else Done (missing_key key)
  end.

Definition invalid_values : response :=
  Reply 400 (Text "Invalid values: price must be a positive float and quantity a positive integer").

(** The [try] block of product create and product update: both fields
    are read and coerced, and a negative one raises [ValueError]. *)
Definition read_price_quantity (data : json) : flow (float * Z) :=
  pv <- eval_try invalid_values (getitem data "price");;
  price <- eval_try invalid_values (to_float pv);;
  qv <- eval_try invalid_values (getitem data "quantity");;
  quantity <- eval_try invalid_values (to_int qv);;
  if float_neg price || (quantity <? 0) then Done invalid_values
  else Next (price, quantity).

(** An integer column holds 64 bits, signed. *)
Definition fits_int64 (z : Z) : bool :=
  (- 2 ^ 63 <=? z) && (z <? 2 ^ 63).

Definition is_nan (x : float) : bool :=
  match x with
  | S754_nan => true
  | _ => false
  end.

(** What a float column gives back for what was stored: the zero with a
    sign comes back as zero. *)
Definition column_float (x : float) : float :=
  match x with
  | S754_zero _ => S754_zero false
  | _ => x
  end.

(** Modelled from the spec: the columns [price] and [quantity] of a
    product, declared in [models.py].  The spec gives a product a price
    and a quantity at all times (of all columns only [date_processed] of
    an order is nullable), so both are NOT NULL.  Binding an integer
    that does not fit the column raises [OverflowError]; a price that is
    not a number is bound as NULL, which the column refuses with
    [IntegrityError].  The result is the row as it is read back. *)
Definition product_row (pr : float) (q : Z) : res (float * Z) :=
  if negb (fits_int64 q) then Raise OverflowError
  else if is_nan pr then Raise IntegrityError
  else Val (column_float pr, q).

(** [db.session.add(product); db.session.commit()] for a new product: the
    name is the primary key. *)
Definition add_product (nv : json) (pr : float) (q : Z) (st : Store)
  : Store * response :=
  match key_of nv with
  | Raise e => (st, Crash e)
  | Val n =>
      match product_row pr q with
      | Raise e => (st, Crash e)
      | Val (pr', q') =>
          match products st !! n with
          | Some _ => (st, Crash IntegrityError)
          | None =>
              (set_products
                 (<[n := {| name := n; price := pr'; quantity := q' |}]>
                    (products st))
                 st,
               Reply 200 (Text "Item added to the database"))
          end
      end
  end.

(** [POST /api/product] *)
Definition api_create_product (data : json) (st : Store) : Store * response :=
  match
    (require_keys data ["name"; "price"; "quantity"];;;
     pq <- read_price_quantity data;;
     nv <- eval (getitem data "name");;
     Next (nv, pq))
  with
  | Done r => (st, r)
  | Next (nv, (pr, q)) => add_product nv pr q st
  end.

(** [DELETE /api/product/<name>] *)
Definition api_delete_product (n : string) (st : Store) : Store * response :=
  match products st !! lower n with
  | None => (st, Crash UnmappedInstanceError)
  | Some _ =>
      (set_products (delete (lower n) (products st)) st,
       Reply 200 (Text "Product deleted from the database"))
  end.

(** [PUT /api/product/<name>] *)
Definition api_update_product (n : string) (data : json) (st : Store)
  : Store * response :=
  match
    (ks <- eval (keys data);;
     if negb (existsb (String.eqb "price") ks)
        && negb (existsb (String.eqb "quantity") ks)
     then Done (Reply 400 (Text "The JSON provided is invalid"))
     else read_price_quantity data)
  with
  | Done r => (st, r)
  | Next (pr, q) =>
      match products st !! lower n with
      | None => (st, Crash AttributeError)
      | Some product =>
          match product_row pr q with
          | Raise e => (st, Crash e)
          | Val (pr', q') =>
              (set_products
                 (<[lower n := {| name := name product; price := pr';
                                  quantity := q' |}]>
                    (products st))
                 st,
               Reply 200 (Text "Product updated"))
          end
      end
  end.

(** ** Order handlers *)

(** [GET /api/order/<order_id>] *)
Definition api_get_order (order_id : Z) (st : Store) : Store * response :=
  match orders st !! order_id with
  | None => (st, Crash AttributeError)
  | Some order => (st, Reply 200 (OrderJson order))
  end.

(** The body of the loop of [api_process_order] for one line item and the
    product it names: the new line item and the new product. *)
Definition process_item (product_order : ProductsOrder) (product_obj : Product)
  : ProductsOrder * Product :=
  if quantity product_obj - po_quantity product_order <? 0 then
    (with_po_quantity (quantity product_obj) product_order,
     with_quantity 0 product_obj)
  else
    (product_order,
     with_quantity (quantity product_obj - po_quantity product_order)
       product_obj).

(** [for product_order in order.products: ...], each turn committed.  The
    result is the products, the line items as they now are, and the
    exception that stopped the loop, if any. *)
Fixpoint process_loop (ps : gmap string Product) (items : list ProductsOrder)
  : gmap string Product * list ProductsOrder * option exn :=
  match items with
  | [] => (ps, [], None)
  | product_order :: rest =>
      match ps !! product_name product_order with
      | None => (ps, items, Some AttributeError)
      | Some product_obj =>
          let '(po', p') := process_item product_order product_obj in
          let '(ps', rest', stop) :=
            process_loop (<[product_name product_order := p']> ps) rest in
          (ps', po' :: rest', stop)
      end
  end.

(** [PUT /api/order/<order_id>] *)
Definition api_process_order (order_id : Z) (now : datetime) (st : Store)
  : Store * response :=
  match orders st !! order_id with
  | None => (st, Crash AttributeError)
  | Some order =>
      let date := strftime now in
      let '(ps, items, stop) :=
        process_loop (products st) (order_products order) in
      match stop with
      | Some e =>
          ({| products := ps;
              orders := <[order_id := with_products items order]> (orders st) |},
           Crash e)
      | None =>
          api_get_order order_id
            {| products := ps;
               orders :=
                 <[order_id := mark_processed date (with_products items order)]>
                   (orders st) |}
      end
  end.

Definition unknown_product : response :=
  Reply 400 (Text "Item not found in the database").

Definition extraneous_key : response :=
  Reply 400 (Text "The JSON provided is invalid, 'products' is missing a key").

Definition invalid_quantity : response :=
  Reply 400 (Text "Invalid values: quantity must be a positive integer").

Definition invalid_completed : response :=
  Reply 400 (Text "The JSON completed provided is invalid").

(** [for key in item.keys(): if key not in ("product_name", "quantity")] *)
Fixpoint check_keys (ks : list string) : flow unit :=
  match ks with
  | [] => Next tt
  | key :: rest =>
      if String.eqb key "product_name" || String.eqb key "quantity"
      then check_keys rest
      else Done extraneous_key
  end.

Fixpoint check_items (items : list json) : flow unit :=
  match items with
  | [] => Next tt
  | item :: rest =>
      ks <- eval (keys item);;
      check_keys ks;;;
      check_items rest
  end.

(** [for product in ...: if db.session.get(Product, ...) is None] *)
Fixpoint check_products (st : Store) (items : list json) : flow unit :=
  match items with
  | [] => Next tt
  | product :: rest =>
      k <- eval (getitem product "product_name");;
      found <- eval (session_get_product st k);;
      match found with
      | None => Done unknown_product
      | Some _ => check_products st rest
      end
  end.

(** The [try] block that builds [product_orders]. *)
Fixpoint build_product_orders (st : Store) (items : list json)
  : flow (list ProductsOrder) :=
  match items with
  | [] => Next []
  | product :: rest =>
      k <- eval_try invalid_quantity (getitem product "product_name");;
      found <- eval_try invalid_quantity (session_get_product st k);;
      match found with
      | None => Done unknown_product
      | Some _ =>
          qv <- eval_try invalid_quantity (getitem product "quantity");;
          q <- eval_try invalid_quantity (to_int qv);;
          if q <? 0 then Done invalid_quantity
          else
            n <- eval_try invalid_quantity (key_of k);;
            product_orders <- build_product_orders st rest;;
            Next ({| product_name := n; po_quantity := q |} :: product_orders)
      end
  end.

Definition order_keys : list string :=
  ["customer_name"; "customer_address"; "completed"; "products";
   "date_created"; "date_processed"].

(** [db.session.add(order); db.session.commit()] for a new order and its
    line items.  The text columns are taken to give back what they were
    given, which is so for texts and for null, and the quantities to fit
    the integer column ([fits_int64]). *)
Definition add_order (cn ca : json) (b : bool) (dc dp : json)
    (product_orders : list ProductsOrder) (st : Store) : Store * response :=
  if negb (bindable cn && bindable ca && bindable dc && bindable dp)
  then (st, Crash InterfaceError)
  else if negb (distinct (map product_name product_orders))
  then (st, Crash IntegrityError)
  else
    let order := {| id := next_order_id (orders st);
                    customer_name := cn; customer_address := ca;
                    completed := b;
                    date_created := dc; date_processed := dp;
                    order_products := product_orders |} in
    (set_orders (<[id order := order]> (orders st)) st,
     Reply 200 (OrderJson order)).

(** The checks of [api_create_order], down to the values the order is
    built from. *)
Definition order_fields (data : json) (st : Store)
  : flow (json * json * bool * json * json * list ProductsOrder) :=
  require_keys data order_keys;;;
  pv <- eval (getitem data "products");;
  items <- eval (iterate pv);;
  check_items items;;;
  check_products st items;;;
  cv <- eval (getitem data "completed");;
  match is_bool cv with
  | None => Done invalid_completed
  | Some b =>
      product_orders <- build_product_orders st items;;
      cn <- eval (getitem data "customer_name");;
      ca <- eval (getitem data "customer_address");;
      dc <- eval (getitem data "date_created");;
      dp <- eval (getitem data "date_processed");;
      Next (cn, ca, b, dc, dp, product_orders)
  end.

(** [POST /api/order] *)
Definition api_create_order (data : json) (st : Store) : Store * response :=
  match order_fields data st with
  | Done r => (st, r)
  | Next (cn, ca, b, dc, dp, product_orders) =>
      add_order cn ca b dc dp product_orders st
  end.

(** [DELETE /api/order/<order_id>]: the line items go with the order. *)
Definition api_delete_order (order_id : Z) (st : Store) : Store * response :=
  match orders st !! order_id with
  | None => (st, Crash UnmappedInstanceError)
  | Some _ =>
      (set_orders (delete order_id (orders st)) st,
       Reply 200 (Text "Order deleted from the database"))
  end.

(** [for item in data: product_order = query.get(...);
    db.session.delete(product_order)] *)
Fixpoint delete_items (st : Store) (order_id : Z) (items : list json)
  : flow unit :=
  match items with
  | [] => Next tt
  | item :: rest =>
      k <- eval (getitem item "product_name");;
      n <- eval (key_of k);;
      match get_line_item st n order_id with
      | None => Done (Crash UnmappedInstanceError)
      | Some _ => delete_items st order_id rest
      end
  end.

(** The checks of [api_update_order]: the items of the payload and the
    line items built from them. *)
Definition line_items (data : json) (st : Store)
  : flow (list json * list ProductsOrder) :=
  items <- eval (iterate data);;
  check_items items;;;
  check_products st items;;;
  product_orders <- build_product_orders st items;;
  Next (items, product_orders).

(** Modelled from the spec: the relationship between an order and its
    line items is declared in [models.py]; assigning [order.products]
    replaces the line items of the order by the new ones.  The commit
    refuses two line items for one product, and a quantity that does not
    fit the integer column. *)
Definition replace_products (order_id : Z)
    (product_orders : list ProductsOrder) (st : Store) : Store * response :=
  match orders st !! order_id with
  | None => (st, Crash AttributeError)
  | Some order =>
      if negb (distinct (map product_name product_orders))
      then (st, Crash IntegrityError)
      else if negb (forallb fits_int64 (map po_quantity product_orders))
      then (st, Crash OverflowError)
      else
        (set_orders
           (<[order_id := with_products product_orders order]> (orders st))
           st,
         Reply 200 (Text "Order Updated successfully"))
  end.

(** [POST /api/order/<order_id>] *)
Definition api_update_order (order_id : Z) (data : json) (st : Store)
  : Store * response :=
  match line_items data st with
  | Done r => (st, r)
  | Next (items, product_orders) =>
      match delete_items st order_id items with
      | Done r => (st, r)
      | Next _ => replace_products order_id product_orders st
      end
  end.

(** ** Requests *)

(** The routes of the application, with what each takes from the URL,
    the body and the clock. *)
Inductive request :=
| GetProduct (n : string)
| CreateProduct (data : json)
| DeleteProduct (n : string)
| UpdateProduct (n : string) (data : json)
| GetOrder (order_id : Z)
| ProcessOrder (order_id : Z) (now : datetime)
| CreateOrder (data : json)
| DeleteOrder (order_id : Z)
| UpdateOrder (order_id : Z) (data : json).

Definition handle (rq : request) (st : Store) : Store * response :=
  match rq with
  | GetProduct n => api_get_product n st
  | CreateProduct data => api_create_product data st
  | DeleteProduct n => api_delete_product n st
  | UpdateProduct n data => api_update_product n data st
  | GetOrder order_id => api_get_order order_id st
  | ProcessOrder order_id now => api_process_order order_id now st
  | CreateOrder data => api_create_order data st
  | DeleteOrder order_id => api_delete_order order_id st
  | UpdateOrder order_id data => api_update_order order_id data st
  end.

(** The store after a sequence of requests. *)
Fixpoint run (rqs : list request) (st : Store) : Store :=
  match rqs with
  | [] => st
  | rq :: rest => run rest (handle rq st).1
  end.

(** ** Rejections *)

(** The answers that refuse a request: a 400 with a message, or an
    exception. *)
Definition is_rejection (r : response) : bool :=
  match r with
  | Reply 400 (Text _) => true
  | Crash _ => true
  | _ => false
  end.

(** The item of a payload has a product name, and it is a string. *)
Definition named (item : json) : bool :=
  match getitem item "product_name" with
  | Val (JStr _) => true
  | _ => false
  end.

(** ** Valid payloads, in the words of the specification *)

(** A line item of a payload is valid when it is an object with no key
    besides [product_name] and [quantity], its product is in the store,
    and its quantity is an integer that is not below zero.  The result is
    the line item it stands for. *)
Definition valid_item (st : Store) (item : json) : option ProductsOrder :=
  match item with
  | JObj kvs =>
      if forallb (fun k => String.eqb k "product_name" || String.eqb k "quantity")
           (map fst kvs)
      then
        match assoc "product_name" kvs, assoc "quantity" kvs with
        | Some (JStr n), Some qv =>
            match products st !! n, to_int qv with
            | Some _, Val q =>
                if q <? 0 then None
                else Some {| product_name := n; po_quantity := q |}
            | _, _ => None
            end
        | _, _ => None
        end
      else None
  | _ => None
  end.

Fixpoint valid_items (st : Store) (items : list json)
  : option (list ProductsOrder) :=
  match items with
  | [] => Some []
  | item :: rest =>
      match valid_item st item, valid_items st rest with
      | Some po, Some pos => Some (po :: pos)
      | _, _ => None
      end
  end.

(** An order-create payload is valid when it is an object with the six
    required fields, [completed] is a boolean, and [products] is a list
    of valid line items. *)
Definition valid_order_payload (st : Store) (data : json)
  : option (json * json * bool * json * json * list ProductsOrder) :=
  match data with
  | JObj kvs =>
      match assoc "customer_name" kvs, assoc "customer_address" kvs,
            assoc "completed" kvs, assoc "products" kvs,
            assoc "date_created" kvs, assoc "date_processed" kvs with
      | Some cn, Some ca, Some (JBool b), Some (JList items), Some dc, Some dp =>
          match valid_items st items with
          | Some pos => Some (cn, ca, b, dc, dp, pos)
          | None => None
          end
      | _, _, _, _, _, _ => None
      end
  | _ => None
  end.

(** ** The invariant of products *)

(** What the checks of the handlers keep out: a price below zero, a
    quantity below zero. *)
Definition product_ok (p : Product) : Prop :=
  float_neg (price p) = false /\ 0 <= quantity p.

Definition store_ok (st : Store) : Prop :=
  forall (n : string) (p : Product), products st !! n = Some p -> product_ok p.

(** The invariant of the data model: a price that is zero or above, a
    quantity that is zero or above. *)
Definition product_nonneg (p : Product) : Prop :=
  float_nonneg (price p) = true /\ 0 <= quantity p.

Definition store_nonneg (st : Store) : Prop :=
  forall (n : string) (p : Product),
    products st !! n = Some p -> product_nonneg p.

(** ** Well-formed orders *)

(** The line item names a product that is in the store. *)
Definition in_stock (ps : gmap string Product) (po : ProductsOrder) : bool :=
  match ps !! product_name po with
  | Some _ => true
  | None => false
  end.

(** The line items of an order as the database keeps them: one line item
    for a product at most, and every product there. *)
Definition wf_items (ps : gmap string Product) (items : list ProductsOrder)
  : bool :=
  distinct (map product_name items) && forallb (in_stock ps) items.


(** ** Timestamps, read back *)

(** The timestamps the model prints as Python does: four-digit years. *)
Definition valid_datetime (now : datetime) : bool :=
  (1000 <=? year now) && (year now <=? 9999)
  && (1 <=? month now) && (month now <=? 12)
  && (1 <=? day now) && (day now <=? 31)
  && (0 <=? hour now) && (hour now <=? 23)
  && (0 <=? minute now) && (minute now <=? 59).

Definition digits2 (a b : ascii) : option Z :=
  match digit_val a, digit_val b with
  | Some x, Some y => Some (10 * x + y)
  | _, _ => None
  end.

(** A text in the format [YYYY-MM-DD HH:MM], read back into its fields. *)
Definition read_timestamp (s : string) : option datetime :=
  match list_ascii_of_string s with
  | [y1; y2; y3; y4; d1; m1; m2; d2; a1; a2; sp; h1; h2; co; n1; n2] =>
      if Ascii.eqb d1 "-" && Ascii.eqb d2 "-" && Ascii.eqb sp " "
         && Ascii.eqb co ":"
      then
        match digits2 y1 y2, digits2 y3 y4, digits2 m1 m2, digits2 a1 a2,
              digits2 h1 h2, digits2 n1 n2 with
        | Some yh, Some yl, Some mo, Some da, Some ho, Some mi =>
            Some {| year := 100 * yh + yl; month := mo; day := da;
                    hour := ho; minute := mi |}
        | _, _, _, _, _, _ => None
        end
      else None
  | _ => None
  end.


(** ** Sample data *)

Module Sample.

Definition half : float := S754_finite false 4503599627370496 (-53).

Definition three_halves : float := S754_finite false 6755399441055744 (-52).

Definition bolt : Product :=
  {| name := "bolt"; price := half; quantity := 3 |}.

Definition nut : Product :=
  {| name := "nut"; price := three_halves; quantity := 10 |}.

Definition line (n : string) (q : Z) : ProductsOrder :=
  {| product_name := n; po_quantity := q |}.

Definition order_of (b : bool) (dp : json) (items : list ProductsOrder)
  : Order :=
  {| id := 1; customer_name := JStr "Tim"; customer_address := JStr "Vancouver";
     completed := b; date_created := JStr "2024-03-07 09:05";
     date_processed := dp; order_products := items |}.

(** A pending order for five bolts. *)
Definition bolt_order : Order := order_of false JNull [line "bolt" 5].

Definition bolt_store : Store :=
  {| products := {[ "bolt" := bolt ]}; orders := {[ 1 := bolt_order ]} |}.

(** A pending order within stock. *)
Definition small_order : Order :=
  order_of false JNull [line "bolt" 2; line "nut" 10].

Definition small_store : Store :=
  {| products := {[ "bolt" := bolt; "nut" := nut ]};
     orders := {[ 1 := small_order ]} |}.

(** An order that was processed already. *)
Definition done_order : Order :=
  order_of true (JStr "2024-03-07 09:05") [line "nut" 4].

Definition done_store : Store :=
  {| products := {[ "nut" := nut ]}; orders := {[ 1 := done_order ]} |}.

Definition empty_store : Store := {| products := ∅; orders := ∅ |}.

(** Bolts and nuts in the store, and a pending order for nuts only. *)
Definition nut_order_store : Store :=
  {| products := {[ "bolt" := bolt; "nut" := nut ]};
     orders := {[ 1 := order_of false JNull [line "nut" 4] ]} |}.

Definition nut_store : Store :=
  {| products := {[ "nut" := nut ]}; orders := ∅ |}.

Definition item (n : string) (q : Z) : json :=
  JObj [("product_name", JStr n); ("quantity", JInt q)].

(** The body of an order-create request. *)
Definition order_payload (b : bool) (items : list json) : json :=
  JObj [("customer_name", JStr "Tim"); ("customer_address", JStr "Vancouver");
        ("completed", JBool b); ("products", JList items);
        ("date_created", JStr "2024-03-07 09:05"); ("date_processed", JNull)].


(** The body of a product-create request. *)
Definition product_payload (n : string) (pr q : json) : json :=
  JObj [("name", JStr n); ("price", pr); ("quantity", q)].

Definition morning : datetime :=
  {| year := 2024; month := 3; day := 8; hour := 7; minute := 30 |}.

End Sample.

(** ** Payloads as objects *)

(** [key in data] for an object with the fields [kvs]. *)
Definition has_key (kvs : list (string * json)) (key : string) : bool :=
  existsb (String.eqb key) (map fst kvs).

(** The keys a line item of a payload may have. *)
Definition allowed_key (k : string) : bool :=
  String.eqb k "product_name" || String.eqb k "quantity".

(** A JSON text. *)
Definition is_text (v : json) : bool :=
  match v with
  | JStr _ => true
  | _ => false
  end.

(** A JSON text or null. *)
Definition is_text_or_null (v : json) : bool :=
  match v with
  | JStr _ | JNull => true
  | _ => false
  end.

(** ** Keys of the store *)

(** Every row is stored under its own key: a product under its name, an
    order under its id. *)
Definition store_keyed (st : Store) : Prop :=
  (forall (n : string) (p : Product), products st !! n = Some p -> name p = n)
  /\ (forall (k : Z) (o : Order), orders st !! k = Some o -> id o = k).

(** ** More sample data *)

Module Fixture.

(** Nuts in the store, and a pending order for nuts and for bolts, which
    the store no longer has. *)
Definition dangling_order : Order :=
  Sample.order_of false JNull [Sample.line "nut" 4; Sample.line "bolt" 1].

Definition dangling_store : Store :=
  {| products := {[ "nut" := Sample.nut ]};
     orders := {[ 1 := dangling_order ]} |}.

(** Bolts and nuts in the store, and a pending order for both. *)
Definition pair_order : Order :=
  Sample.order_of false JNull [Sample.line "bolt" 5; Sample.line "nut" 4].

Definition pair_store : Store :=
  {| products := {[ "bolt" := Sample.bolt; "nut" := Sample.nut ]};
     orders := {[ 1 := pair_order ]} |}.

End Fixture.

(** ** The script [create_order.py] *)

(** The order the script starts from:
    [Order(name="Tim", address="Vancouver", date_created=date,
    completed=False)], under the id the database gives it. *)
Definition script_order (date : string) (k : Z) : Order :=
  {| id := k; customer_name := JStr "Tim"; customer_address := JStr "Vancouver";
     completed := false; date_created := JStr date; date_processed := JNull;
     order_products := [] |}.

(** [ProductsOrder(product=p, order=o, quantity=quantity)] *)
Definition association (p : Product) (q : Z) : ProductsOrder :=
  {| product_name := name p; po_quantity := q |}.

(** The script.  What the random generator gives is an input: [sample]
    is the result of [random.sample(Product.query.all(), k=5)], [rolls]
    are the results of the calls of [random.randint(1, 10)], in order.
    The order is committed first; [random.sample] raises [ValueError]
    when there are fewer than five products; the line items are
    committed together at the end.  The result is the store and the
    exception that ended the script, if any. *)
Definition create_order_script (now : datetime) (sample : list Product)
    (rolls : list Z) (st : Store) : Store * option exn :=
  let date := strftime now in
  let o := script_order date (next_order_id (orders st)) in
  let st1 := set_orders (<[id o := o]> (orders st)) st in
  if (size (products st) <? 5)%nat then (st1, Some ValueError)
  else
    (set_orders
       (<[id o := with_products (zip_with association sample rolls) o]>
          (orders st1))
       st1,
     None).

(** What the random generator can give on a store: five products of the
    store, no two the same, and five numbers from 1 to 10. *)
Definition valid_draw (st : Store) (sample : list Product) (rolls : list Z)
  : bool :=
  (length sample =? 5)%nat && (length rolls =? 5)%nat
  && distinct (map name sample)
  && forallb (fun p => match products st !! name p with
                       | Some _ => true
                       | None => false
                       end) sample
  && forallb (fun q => (1 <=? q) && (q <=? 10)) rolls.


Module Hardware.

Definition product (n : string) (q : Z) : Product :=
  {| name := n; price := Sample.half; quantity := q |}.

Definition shelf : list Product :=
  [product "anchor" 2; product "bolt" 3; product "nut" 10;
   product "screw" 0; product "washer" 7].

(** Five products in the store, no order. *)
Definition store : Store :=
  {| products :=
       {[ "anchor" := product "anchor" 2; "bolt" := product "bolt" 3;
          "nut" := product "nut" 10; "screw" := product "screw" 0;
          "washer" := product "washer" 7 ]};
     orders := ∅ |}.

End Hardware.
(** * Properties *)

(** ** The processing loop *)

Lemma existsb_eqb_false (n : string) (l : list string) :
  existsb (String.eqb n) l = false -> forall m, In m l -> n <> m.
Proof.
  induction l as [|x l IH]; simpl; intros H m Hin; [contradiction|].
  apply orb_false_iff in H as [Hx Hl].
  destruct Hin as [->|Hin].
  - apply String.eqb_neq. exact Hx.
  - apply IH; assumption.
Qed.

Lemma process_item_name (po : ProductsOrder) (p : Product) :
  product_name (fst (process_item po p)) = product_name po
  /\ name (snd (process_item po p)) = name p
  /\ price (snd (process_item po p)) = price p.
Proof. unfold process_item. destruct (_ <? 0); simpl; auto. Qed.

(** What one turn of the loop writes, in closed form. *)
Lemma process_item_values (po : ProductsOrder) (p : Product) :
  po_quantity (fst (process_item po p)) = Z.min (po_quantity po) (quantity p)
  /\ quantity (snd (process_item po p))
     = Z.max 0 (quantity p - po_quantity po).
Proof.
  unfold process_item.
  destruct (Z.ltb_spec (quantity p - po_quantity po) 0); simpl; lia.
Qed.

(** A product that no line item names is left alone, however the loop
    ends. *)
Lemma process_loop_other (items : list ProductsOrder) :
  forall (ps : gmap string Product) (n : string),
    existsb (String.eqb n) (map product_name items) = false ->
    (process_loop ps items).1.1 !! n = ps !! n.
Proof.
  induction items as [|po rest IH]; intros ps n Hn; simpl; [reflexivity|].
  simpl in Hn. apply orb_false_iff in Hn as [Hpo Hrest].
  destruct (ps !! product_name po) as [p|] eqn:Hp; simpl; [|reflexivity].
  destruct (process_item po p) as [po' p'].
  specialize (IH (<[product_name po := p']> ps) n Hrest).
  destruct (process_loop (<[product_name po := p']> ps) rest) as [[ps' rest'] stop].
  simpl in *. rewrite IH. apply lookup_insert_ne.
  intros E. rewrite E, String.eqb_refl in Hpo. discriminate.
Qed.

Lemma in_stock_insert (ps : gmap string Product) (n : string) (p : Product)
    (items : list ProductsOrder) :
  forallb (in_stock ps) items = true ->
  forallb (in_stock (<[n := p]> ps)) items = true.
Proof.
  intros H. apply forallb_forall. intros po Hin.
  rewrite forallb_forall in H. specialize (H po Hin).
  unfold in_stock in *.
  destruct (decide (n = product_name po)) as [->|Hne].
  - rewrite lookup_insert_eq. reflexivity.
  - rewrite lookup_insert_ne by assumption. exact H.
Qed.

(** On a well-formed order the loop runs to its end, and every line item
    and the product it names get what [process_item] computes from their
    values before the loop. *)
Lemma process_loop_spec (items : list ProductsOrder) :
  forall ps : gmap string Product,
    wf_items ps items = true ->
    (process_loop ps items).2 = None
    /\ length (process_loop ps items).1.2 = length items
    /\ forall (i : nat) (po : ProductsOrder) (p : Product),
         items !! i = Some po ->
         ps !! product_name po = Some p ->
         (process_loop ps items).1.2 !! i = Some (fst (process_item po p))
         /\ (process_loop ps items).1.1 !! product_name po
            = Some (snd (process_item po p)).
Proof.
  induction items as [|po0 rest IH]; intros ps Hwf.
  - simpl. repeat split; intros; discriminate.
  - unfold wf_items in Hwf. simpl in Hwf.
    apply andb_true_iff in Hwf as [Hd Hall].
    apply andb_true_iff in Hd as [Hfresh Hd].
    apply andb_true_iff in Hall as [H0 Hall].
    apply negb_true_iff in Hfresh.
    unfold in_stock in H0. simpl.
    destruct (ps !! product_name po0) as [p0|] eqn:Hp0; [|discriminate].
    destruct (process_item po0 p0) as [po' p'] eqn:Hstep.
    pose proof (process_loop_other rest (<[product_name po0 := p']> ps)
                  (product_name po0) Hfresh) as Hkeep.
    assert (Hwf' : wf_items (<[product_name po0 := p']> ps) rest = true).
    { unfold wf_items. rewrite Hd. simpl. apply in_stock_insert, Hall. }
    destruct (IH _ Hwf') as (Hstop & Hlen & Hitems).
    destruct (process_loop (<[product_name po0 := p']> ps) rest)
      as [[ps' rest'] stop].
    simpl in *. split; [exact Hstop|]. split; [congruence|].
    intros [|i] po p Hi Hp; simpl in *.
    + injection Hi as <-. rewrite Hp0 in Hp. injection Hp as <-.
      rewrite Hstep. simpl. split; [reflexivity|].
      rewrite Hkeep. apply lookup_insert_eq.
    + apply Hitems; [exact Hi|].
      rewrite lookup_insert_ne; [exact Hp|].
      apply (existsb_eqb_false _ _ Hfresh).
      apply in_map. apply list_elem_of_In. eapply list_elem_of_lookup_2, Hi.
Qed.

(** ** Timestamps *)

Lemma digit_val_digit_char (d : Z) : digit_val (digit_char d) = Some (d mod 10).
Proof.
  unfold digit_char.
  assert (H : 0 <= d mod 10 < 10) by (apply Z.mod_pos_bound; lia).
  destruct (d mod 10) as [|k|k]; [reflexivity| |lia].
  assert (Hk : (k = 1 \/ k = 2 \/ k = 3 \/ k = 4 \/ k = 5 \/ k = 6 \/ k = 7
                \/ k = 8 \/ k = 9)%positive) by lia.
  destruct Hk as [->|[->|[->|[->|[->|[->|[->|[->| ->]]]]]]]]; reflexivity.
Qed.

Lemma digits2_pad (n : Z) :
  0 <= n < 100 ->
  digits2 (digit_char (n / 10)) (digit_char n) = Some n.
Proof.
  intros Hn. unfold digits2. rewrite !digit_val_digit_char.
  f_equal. rewrite (Z.mod_small (n / 10)) by (split; [apply Z.div_pos|apply Z.div_lt_upper_bound]; lia).
  pose proof (Z.div_mod n 10). lia.
Qed.

(** The printed timestamp has the format, and reads back as the time it
    was printed from. *)
Lemma read_timestamp_strftime (now : datetime) :
  valid_datetime now = true -> read_timestamp (strftime now) = Some now.
Proof.
  destruct now as [y mo da ho mi]. unfold valid_datetime. simpl.
  rewrite !andb_true_iff, !Z.leb_le.
  intros [[[[[[[[[Hy1 Hy2] Hm1] Hm2] Hd1] Hd2] Hh1] Hh2] Hn1] Hn2].
  cbv [read_timestamp strftime pad4 pad2 String.append list_ascii_of_string
         year month day hour minute Ascii.eqb Bool.eqb andb].
  rewrite (digits2_pad mo), (digits2_pad da), (digits2_pad ho),
    (digits2_pad mi) by lia.
  assert (Hhi : digits2 (digit_char (y / 1000)) (digit_char (y / 100))
                = Some (y / 100)).
  { replace (y / 1000) with (y / 100 / 10)
      by (rewrite Z.div_div by lia; reflexivity).
    apply digits2_pad. split; [apply Z.div_pos|apply Z.div_lt_upper_bound]; lia. }
  assert (Hlo : digits2 (digit_char (y / 10)) (digit_char y) = Some (y mod 100)).
  { unfold digits2. rewrite !digit_val_digit_char. f_equal.
    pose proof (Z.div_mod y 10). pose proof (Z.div_mod y 100).
    pose proof (Z.div_mod (y / 10) 10).
    pose proof (Z.mod_pos_bound y 10). pose proof (Z.mod_pos_bound y 100).
    pose proof (Z.mod_pos_bound (y / 10) 10).
    assert (y / 10 / 10 = y / 100) by (rewrite Z.div_div by lia; reflexivity).
    lia. }
  rewrite Hhi, Hlo. do 2 f_equal. pose proof (Z.div_mod y 100). lia.
Qed.

(** ** Order processing *)

(** Processing a well-formed order: the loop ends, the order is marked
    and answered. *)
Lemma process_order_wf (order_id : Z) (now : datetime) (st : Store) (o : Order) :
  orders st !! order_id = Some o ->
  wf_items (products st) (order_products o) = true ->
  let run := process_loop (products st) (order_products o) in
  let o' := mark_processed (strftime now) (with_products run.1.2 o) in
  api_process_order order_id now st
  = ({| products := run.1.1; orders := <[order_id := o']> (orders st) |},
     Reply 200 (OrderJson o')).
Proof.
  intros Ho Hwf run o'. unfold api_process_order. rewrite Ho.
  destruct (process_loop_spec _ _ Hwf) as (Hstop & _ & _).
  subst o' run.
  destruct (process_loop (products st) (order_products o)) as [[ps items] stop].
  simpl in *. subst stop. unfold api_get_order. simpl.
  rewrite lookup_insert_eq. reflexivity.
Qed.

(** C1. When a line item asks for more than the stock of its product
    ([s - q < 0]), processing the order writes the stock [s] it found
    into the line item and leaves the product with stock 0.  The order is
    one the store can hold: its line items name different products, all
    of them in the store. *)
Theorem process_order_clamps (order_id : Z) (now : datetime) (st : Store)
    (o : Order) (i : nat) (po : ProductsOrder) (p : Product) :
  orders st !! order_id = Some o ->
  wf_items (products st) (order_products o) = true ->
  order_products o !! i = Some po ->
  products st !! product_name po = Some p ->
  quantity p - po_quantity po < 0 ->
  exists o' : Order,
    orders (api_process_order order_id now st).1 !! order_id = Some o'
    /\ order_products o' !! i = Some (with_po_quantity (quantity p) po)
    /\ products (api_process_order order_id now st).1 !! product_name po
       = Some (with_quantity 0 p).
Proof.
  intros Ho Hwf Hi Hp Hlt.
  rewrite (process_order_wf _ now _ _ Ho Hwf). simpl.
  destruct (process_loop_spec _ _ Hwf) as (_ & _ & Hitems).
  destruct (Hitems i po p Hi Hp) as [Hpo' Hp'].
  eexists. split; [apply lookup_insert_eq|]. simpl.
  rewrite Hpo', Hp'. unfold process_item.
  apply Z.ltb_lt in Hlt. rewrite Hlt. split; reflexivity.
Qed.

(** The example of the specification: three bolts in stock, five asked
    for. *)
Lemma process_order_clamps_bolt :
  exists o' : Order,
    orders (api_process_order 1 Sample.morning Sample.bolt_store).1 !! 1
    = Some o'
    /\ order_products o' !! 0%nat = Some (Sample.line "bolt" 3)
    /\ products (api_process_order 1 Sample.morning Sample.bolt_store).1
         !! "bolt"
       = Some {| name := "bolt"; price := Sample.half; quantity := 0 |}.
Proof.
  apply (process_order_clamps 1 Sample.morning Sample.bolt_store
           Sample.bolt_order 0 (Sample.line "bolt" 5) Sample.bolt);
    [reflexivity | reflexivity | reflexivity | reflexivity | simpl; lia].
Defined.




(** The loop changes quantities, not names, and drops no product. *)
Lemma process_loop_names (items : list ProductsOrder) :
  forall ps : gmap string Product,
    map product_name (process_loop ps items).1.2 = map product_name items.
Proof.
  induction items as [|po rest IH]; intros ps; simpl; [reflexivity|].
  destruct (ps !! product_name po) as [p|]; simpl; [|reflexivity].
  pose proof (process_item_name po p) as (Hn & _ & _).
  destruct (process_item po p) as [po' p'].
  specialize (IH (<[product_name po := p']> ps)).
  destruct (process_loop (<[product_name po := p']> ps) rest)
    as [[ps' rest'] stop].
  simpl in *. congruence.
Qed.

Lemma process_loop_keeps (items : list ProductsOrder) :
  forall (ps : gmap string Product) (n : string),
    is_Some (ps !! n) -> is_Some ((process_loop ps items).1.1 !! n).
Proof.
  induction items as [|po rest IH]; intros ps n Hn; simpl; [exact Hn|].
  destruct (ps !! product_name po) as [p|]; simpl; [|exact Hn].
  destruct (process_item po p) as [po' p'].
  specialize (IH (<[product_name po := p']> ps) n).
  destruct (process_loop (<[product_name po := p']> ps) rest)
    as [[ps' rest'] stop].
  simpl in *. apply IH.
  destruct (decide (product_name po = n)) as [->|Hne].
  - rewrite lookup_insert_eq. eauto.
  - rewrite lookup_insert_ne by assumption. exact Hn.
Qed.

Lemma wf_items_names (ps ps' : gmap string Product)
    (items items' : list ProductsOrder) :
  map product_name items' = map product_name items ->
  (forall n : string, is_Some (ps !! n) -> is_Some (ps' !! n)) ->
  wf_items ps items = true -> wf_items ps' items' = true.
Proof.
  intros Hnames Hkeep Hwf. unfold wf_items in *.
  apply andb_true_iff in Hwf as [Hd Hall]. rewrite Hnames, Hd. simpl.
  apply forallb_forall. intros po' Hin.
  assert (Hn : In (product_name po') (map product_name items))
    by (rewrite <- Hnames; apply in_map, Hin).
  apply in_map_iff in Hn as (po & Hpo & Hin').
  rewrite forallb_forall in Hall. specialize (Hall po Hin').
  unfold in_stock in *. rewrite <- Hpo.
  destruct (ps !! product_name po) eqn:Hp; [|discriminate].
  destruct (Hkeep (product_name po)) as [p' ->]; [rewrite Hp; eauto|].
  reflexivity.
Qed.

(** X22. Two runs in a row: the first leaves the order completed and as it
    was otherwise, the second takes from what the first left. *)
Lemma process_order_twice (order_id : Z) (now now' : datetime) (st : Store)
    (o : Order) :
  orders st !! order_id = Some o ->
  wf_items (products st) (order_products o) = true ->
  let st1 := (api_process_order order_id now st).1 in
  exists o1 : Order,
    orders st1 !! order_id = Some o1
    /\ completed o1 = true
    /\ (api_process_order order_id now' st1).2
       = Reply 200
           (OrderJson
              (mark_processed (strftime now')
                 (with_products
                    (process_loop (products st1) (order_products o1)).1.2 o1)))
    /\ forall (i : nat) (po : ProductsOrder) (p : Product),
         order_products o !! i = Some po ->
         products st !! product_name po = Some p ->
         (quantity <$> products (api_process_order order_id now' st1).1
                         !! product_name po)
         = Some (Z.max 0 (Z.max 0 (quantity p - po_quantity po)
                          - Z.min (po_quantity po) (quantity p))).
Proof.
  intros Ho Hwf st1. subst st1.
  rewrite (process_order_wf _ now _ _ Ho Hwf). simpl.
  destruct (process_loop_spec _ _ Hwf) as (_ & _ & Hitems).
  set (run1 := process_loop (products st) (order_products o)) in *.
  set (o1 := mark_processed (strftime now) (with_products run1.1.2 o)).
  set (st1 := {| products := run1.1.1; orders := <[order_id := o1]> (orders st) |}).
  assert (Ho1 : orders st1 !! order_id = Some o1) by apply lookup_insert_eq.
  assert (Hwf1 : wf_items (products st1) (order_products o1) = true).
  { apply (wf_items_names (products st) _ (order_products o)).
    - apply process_loop_names.
    - intros n. apply process_loop_keeps.
    - exact Hwf. }
  exists o1. split; [exact Ho1|]. split; [reflexivity|].
  rewrite (process_order_wf _ now' _ _ Ho1 Hwf1). simpl.
  split; [reflexivity|].
  intros i po p Hi Hp.
  destruct (Hitems i po p Hi Hp) as [Hpo1 Hp1].
  destruct (process_loop_spec _ _ Hwf1) as (_ & _ & Hitems1).
  assert (Hname : product_name (process_item po p).1 = product_name po)
    by apply process_item_name.
  specialize (Hitems1 i (process_item po p).1 (process_item po p).2 Hpo1).
  rewrite Hname in Hitems1. destruct (Hitems1 Hp1) as [_ Hq].
  simpl in Hq. rewrite Hq. simpl.
  destruct (process_item_values (process_item po p).1 (process_item po p).2)
    as [_ ->].
  destruct (process_item_values po p) as [-> ->]. reflexivity.
Qed.

(** C9. Processing does not look at [completed]: on an order that is
    completed already it is not refused, it answers with the order and
    goes through the line items once more, taking from the stock as it
    now is and clamping by the same rule. *)
Theorem process_order_again (order_id : Z) (now : datetime) (st : Store)
    (o : Order) :
  orders st !! order_id = Some o ->
  completed o = true ->
  wf_items (products st) (order_products o) = true ->
  exists o' : Order,
    (api_process_order order_id now st).2 = Reply 200 (OrderJson o')
    /\ orders (api_process_order order_id now st).1 !! order_id = Some o'
    /\ forall (i : nat) (po : ProductsOrder) (p : Product),
         order_products o !! i = Some po ->
         products st !! product_name po = Some p ->
         (po_quantity <$> order_products o' !! i)
         = Some (Z.min (po_quantity po) (quantity p))
         /\ (quantity <$> products (api_process_order order_id now st).1
                            !! product_name po)
            = Some (Z.max 0 (quantity p - po_quantity po)).
Proof.
  intros Ho _ Hwf.
  rewrite (process_order_wf _ now _ _ Ho Hwf). simpl.
  destruct (process_loop_spec _ _ Hwf) as (_ & _ & Hitems).
  eexists. split; [reflexivity|]. split; [apply lookup_insert_eq|].
  intros i po p Hi Hp. simpl.
  destruct (Hitems i po p Hi Hp) as [-> ->]. simpl.
  destruct (process_item_values po p) as [-> ->]. split; reflexivity.
Qed.

(** Four nuts taken again from the ten that the first run left. *)
Lemma process_order_again_nut :
  exists o' : Order,
    (api_process_order 1 Sample.morning Sample.done_store).2
    = Reply 200 (OrderJson o')
    /\ orders (api_process_order 1 Sample.morning Sample.done_store).1 !! 1
       = Some o'
    /\ forall (i : nat) (po : ProductsOrder) (p : Product),
         order_products Sample.done_order !! i = Some po ->
         products Sample.done_store !! product_name po = Some p ->
         (po_quantity <$> order_products o' !! i)
         = Some (Z.min (po_quantity po) (quantity p))
         /\ (quantity <$> products
                            (api_process_order 1 Sample.morning
                               Sample.done_store).1
                            !! product_name po)
            = Some (Z.max 0 (quantity p - po_quantity po)).
Proof.
  apply (process_order_again 1 Sample.morning Sample.done_store
           Sample.done_order); reflexivity.
Defined.

(** ** Control flow *)

Lemma flow_bind_next {A B} (x : flow A) (k : A -> flow B) (b : B) :
  flow_bind x k = Next b -> exists a : A, x = Next a /\ k a = Next b.
Proof. destruct x as [a|r]; simpl; [eauto | discriminate]. Qed.

Lemma flow_bind_done {A B} (x : flow A) (k : A -> flow B) (r : response) :
  flow_bind x k = Done r ->
  x = Done r \/ exists a : A, x = Next a /\ k a = Done r.
Proof. destruct x as [a|r']; simpl; [eauto | intros [= ->]; auto]. Qed.

Lemma eval_next {A} (r : res A) (a : A) : eval r = Next a -> r = Val a.
Proof. destruct r; simpl; congruence. Qed.


Lemma eval_done {A} (r : res A) (d : response) :
  eval r = Done d -> is_rejection d = true.
Proof. destruct r; simpl; [discriminate | intros [= <-]; reflexivity]. Qed.

Lemma eval_try_done {A} (on_error : response) (r : res A) (d : response) :
  is_rejection on_error = true ->
  eval_try on_error r = Done d -> is_rejection d = true.
Proof.
  intros Hon. destruct r as [|[]]; simpl; try discriminate;
    intros [= <-]; auto.
Qed.

(** Takes a hypothesis on the outcome of a sequence of steps apart. *)
Ltac flow_next H :=
  repeat match type of H with
    | flow_bind _ _ = Next _ =>
        let a := fresh "a" in
        let Ha := fresh "Ha" in
        apply flow_bind_next in H as (a & Ha & H)
    end.

(** ** Validation of line items *)

(** Items that pass the product check carry the name of a product of the
    store. *)
Lemma check_products_next (st : Store) (items : list json) :
  check_products st items = Next tt ->
  forall item : json,
    In item items ->
    exists (n : string) (p : Product),
      getitem item "product_name" = Val (JStr n)
      /\ products st !! n = Some p.
Proof.
  induction items as [|x rest IH]; simpl; intros H item Hin; [contradiction|].
  apply flow_bind_next in H as (k & Hk & H). apply eval_next in Hk.
  apply flow_bind_next in H as (found & Hf & H). apply eval_next in Hf.
  destruct found as [p|]; [|discriminate].
  destruct Hin as [<-|Hin]; [|apply IH; assumption].
  unfold session_get_product in Hf. destruct k; try discriminate.
  simpl in Hf. injection Hf as Hf. eauto.
Qed.

(** The product check never lets through an item whose product is not in
    the store; when every item has a name, the answer is the 400 for an
    unknown product. *)
Lemma check_products_unknown (st : Store) (items : list json) (item : json)
    (n : string) :
  In item items ->
  getitem item "product_name" = Val (JStr n) ->
  products st !! n = None ->
  exists r : response,
    check_products st items = Done r
    /\ is_rejection r = true
    /\ (forallb named items = true -> r = unknown_product).
Proof.
  intros Hin Hn Hnone.
  destruct (check_products st items) as [[]|r] eqn:Hcheck.
  - destruct (check_products_next _ _ Hcheck item Hin) as (n' & p & Hn' & Hp).
    congruence.
  - exists r. split; [reflexivity|]. clear Hin Hn Hnone.
    revert Hcheck. induction items as [|x rest IH]; simpl; [discriminate|].
    intros H. unfold named at 1.
    destruct (getitem x "product_name") as [k|e]; simpl in H.
    + destruct k; simpl in H; try (injection H as <-; split; [reflexivity|discriminate]).
      destruct (products st !! s).
      * destruct (IH H) as [Hr Hu]. split; [exact Hr|].
        intros Hall. apply Hu. exact Hall.
      * injection H as <-. split; reflexivity.
    + injection H as <-. split; [reflexivity | discriminate].
Qed.


Lemma check_keys_done (ks : list string) (r : response) :
  check_keys ks = Done r -> is_rejection r = true.
Proof.
  induction ks as [|key rest IH]; simpl; [discriminate|].
  destruct (_ || _); [exact IH | intros [= <-]; reflexivity].
Qed.

Lemma check_items_done (items : list json) (r : response) :
  check_items items = Done r -> is_rejection r = true.
Proof.
  induction items as [|x rest IH]; simpl; [discriminate|].
  destruct (keys x) as [ks|e]; simpl; [|intros [= <-]; reflexivity].
  destruct (check_keys ks) as [[]|r'] eqn:Hk; simpl; [exact IH|].
  intros [= <-]. eapply check_keys_done, Hk.
Qed.

(** ** Order create *)

(** The new id is not the id of an order of the store. *)
Lemma next_order_id_fresh (os : gmap Z Order) : os !! next_order_id os = None.
Proof.
  assert (H : forall (k : Z) (o : Order),
             os !! k = Some o
             -> k <= map_fold (fun k _ acc => Z.max k acc) 0 os).
  { apply (map_fold_weak_ind
             (fun r (m : gmap Z Order) =>
                forall (k : Z) (o : Order), m !! k = Some o -> k <= r)).
    - intros k o Hk. rewrite lookup_empty in Hk. discriminate.
    - intros i x m r _ IH k o Hk.
      destruct (decide (i = k)) as [->|Hne]; [lia|].
      rewrite lookup_insert_ne in Hk by assumption.
      specialize (IH k o Hk). lia. }
  destruct (os !! next_order_id os) as [o|] eqn:Hk; [|reflexivity].
  apply H in Hk. unfold next_order_id in Hk. lia.
Qed.


(** The checks accept the items that are valid in the words of the
    specification, and build the line items they stand for. *)
Lemma check_keys_valid (ks : list string) :
  forallb (fun k => String.eqb k "product_name" || String.eqb k "quantity") ks
  = true ->
  check_keys ks = Next tt.
Proof.
  induction ks as [|k rest IH]; cbn [forallb check_keys]; [reflexivity|].
  intros H. apply andb_true_iff in H as [-> H]. apply IH, H.
Qed.

Lemma valid_items_pass (st : Store) (items : list json) :
  forall pos : list ProductsOrder,
    valid_items st items = Some pos ->
    check_items items = Next tt
    /\ check_products st items = Next tt
    /\ build_product_orders st items = Next pos.
Proof.
  induction items as [|item rest IH]; intros pos H.
  - injection H as <-. repeat split.
  - cbn [valid_items] in H.
    destruct (valid_item st item) as [po|] eqn:Hitem; [|discriminate].
    destruct (valid_items st rest) as [pos'|]; [|discriminate].
    injection H as <-.
    destruct (IH pos' eq_refl) as (Hci & Hcp & Hb).
    unfold valid_item in Hitem. destruct item as [| | | | | |kvs]; try discriminate.
    destruct (forallb _ (map fst kvs)) eqn:Hkeys; [|discriminate].
    destruct (assoc "product_name" kvs) as [[| | | |n| |]|] eqn:Hn;
      try discriminate.
    destruct (assoc "quantity" kvs) as [qv|] eqn:Hq; [|discriminate].
    destruct (products st !! n) as [p|] eqn:Hp; [|discriminate].
    destruct (to_int qv) as [q|e] eqn:Hint; [|discriminate].
    destruct (q <? 0) eqn:Hneg; [discriminate|].
    injection Hitem as <-.
    cbn [check_items check_products build_product_orders keys getitem eval
           flow_bind].
    rewrite (check_keys_valid _ Hkeys), Hn, Hq.
    cbn [eval eval_try flow_bind session_get_product key_of bind].
    rewrite Hp, Hint. cbn [eval_try flow_bind]. rewrite Hneg, Hci, Hcp, Hb.
    repeat split.
Qed.

Lemma assoc_contains (key : string) (kvs : list (string * json)) (v : json) :
  assoc key kvs = Some v -> contains (JObj kvs) key = Val true.
Proof.
  intros H. cbn [contains]. f_equal. revert H.
  induction kvs as [|[k x] rest IH]; cbn [assoc map fst existsb];
    [discriminate|].
  rewrite (String.eqb_sym key k).
  destruct (String.eqb k key); [reflexivity | exact IH].
Qed.

(** A payload that is valid in the words of the specification passes the
    checks of the handler. *)
Lemma valid_order_payload_passes (st : Store) (data : json) (cn ca : json)
    (b : bool) (dc dp : json) (pos : list ProductsOrder) :
  valid_order_payload st data = Some (cn, ca, b, dc, dp, pos) ->
  order_fields data st = Next (cn, ca, b, dc, dp, pos).
Proof.
  unfold valid_order_payload. destruct data as [| | | | | |kvs]; try discriminate.
  destruct (assoc "customer_name" kvs) as [cn'|] eqn:Hcn; [|discriminate].
  destruct (assoc "customer_address" kvs) as [ca'|] eqn:Hca; [|discriminate].
  destruct (assoc "completed" kvs) as [[|b'| | | | |]|] eqn:Hco; try discriminate.
  destruct (assoc "products" kvs) as [[| | | | |items|]|] eqn:Hpr;
    try discriminate.
  destruct (assoc "date_created" kvs) as [dc'|] eqn:Hdc; [|discriminate].
  destruct (assoc "date_processed" kvs) as [dp'|] eqn:Hdp; [|discriminate].
  destruct (valid_items st items) as [pos'|] eqn:Hitems; [|discriminate].
  intros [= <- <- <- <- <- <-].
  destruct (valid_items_pass st items pos' Hitems) as (Hci & Hcp & Hb).
  unfold order_fields, order_keys. cbn [require_keys].
  rewrite (assoc_contains _ _ _ Hcn), (assoc_contains _ _ _ Hca),
    (assoc_contains _ _ _ Hco), (assoc_contains _ _ _ Hpr),
    (assoc_contains _ _ _ Hdc), (assoc_contains _ _ _ Hdp).
  cbn [eval flow_bind getitem]. rewrite Hpr, Hco, Hcn, Hca, Hdc, Hdp.
  cbn [eval flow_bind iterate is_bool]. rewrite Hci, Hcp.
  cbn [flow_bind]. rewrite Hb. reflexivity.
Qed.








(** ** Replacement of line items *)

Lemma line_items_next (data : json) (st : Store) (items : list json)
    (product_orders : list ProductsOrder) :
  line_items data st = Next (items, product_orders) ->
  iterate data = Val items
  /\ check_items items = Next tt
  /\ check_products st items = Next tt
  /\ build_product_orders st items = Next product_orders.
Proof.
  unfold line_items. intros H.
  apply flow_bind_next in H as (items' & Hit & H). apply eval_next in Hit.
  apply flow_bind_next in H as ([] & Hci & H).
  apply flow_bind_next in H as ([] & Hcp & H).
  apply flow_bind_next in H as (pos & Hb & H).
  injection H as -> ->. auto.
Qed.

(** The deletions stop at the first item that is not a line item of the
    order: [db.session.delete(None)]. *)
Lemma delete_items_missing (st : Store) (order_id : Z) (items : list json) :
  check_products st items = Next tt ->
  forall (item : json) (n : string),
    In item items ->
    getitem item "product_name" = Val (JStr n) ->
    get_line_item st n order_id = None ->
    delete_items st order_id items = Done (Crash UnmappedInstanceError).
Proof.
  induction items as [|x rest IH]; simpl; intros Hcp item n Hin Hn Hnone;
    [contradiction|].
  apply flow_bind_next in Hcp as (k & Hk & Hcp). apply eval_next in Hk.
  apply flow_bind_next in Hcp as (found & Hf & Hcp). apply eval_next in Hf.
  destruct found as [p|]; [|discriminate].
  unfold session_get_product in Hf. destruct k; try discriminate.
  rewrite Hk. simpl.
  destruct (get_line_item st s order_id) eqn:Hs; [|reflexivity].
  destruct Hin as [->|Hin]; [congruence|].
  eapply IH; eassumption.
Qed.


(** C10. The replacement of line items works only on products that are
    line items of the order already: for a payload that passes validation
    and names a product with no line item on the order, the handler stops
    on the deletion of a missing row with an uncaught exception, not with
    a 400, and writes nothing. *)
Theorem update_order_missing_line_item (order_id : Z) (data : json)
    (st : Store) (items : list json) (product_orders : list ProductsOrder)
    (item : json) (n : string) :
  line_items data st = Next (items, product_orders) ->
  In item items ->
  getitem item "product_name" = Val (JStr n) ->
  get_line_item st n order_id = None ->
  api_update_order order_id data st = (st, Crash UnmappedInstanceError).
Proof.
  intros Hv Hin Hn Hnone. unfold api_update_order. rewrite Hv.
  destruct (line_items_next _ _ _ _ Hv) as (_ & _ & Hcp & _).
  rewrite (delete_items_missing st order_id items Hcp item n Hin Hn Hnone).
  reflexivity.
Qed.

(** Bolts are in the store, but the order has nuts only. *)
Lemma update_order_missing_line_item_bolt :
  api_update_order 1 (JList [Sample.item "nut" 2; Sample.item "bolt" 1])
    Sample.nut_order_store
  = (Sample.nut_order_store, Crash UnmappedInstanceError).
Proof.
  apply (update_order_missing_line_item 1
           (JList [Sample.item "nut" 2; Sample.item "bolt" 1])
           Sample.nut_order_store
           [Sample.item "nut" 2; Sample.item "bolt" 1]
           [Sample.line "nut" 2; Sample.line "bolt" 1]
           (Sample.item "bolt" 1) "bolt");
    [reflexivity | simpl; auto | reflexivity | reflexivity].
Defined.


(** ** Products *)

Lemma lower_char_idem (c : ascii) : lower_char (lower_char c) = lower_char c.
Proof. destruct c as [[] [] [] [] [] [] [] []]; reflexivity. Qed.

Lemma lower_idem (s : string) : lower (lower s) = lower s.
Proof.
  induction s as [|c s IH]; simpl; [reflexivity|].
  rewrite lower_char_idem, IH. reflexivity.
Qed.

(** A row with a price that is a number and a quantity that fits the
    column is written, and read back with the zero without sign. *)
Lemma product_row_val (pr : float) (q : Z) :
  is_nan pr = false ->
  fits_int64 q = true ->
  product_row pr q = Val (column_float pr, q).
Proof. intros Hpr Hq. unfold product_row. rewrite Hq, Hpr. reflexivity. Qed.

(** A payload with the three fields, valid values that the columns
    take, and a new name is stored under the name as the payload spells
    it. *)
Lemma create_product_stored (data : json) (st : Store) (n : string)
    (pr : float) (q : Z) :
  require_keys data ["name"; "price"; "quantity"] = Next tt ->
  read_price_quantity data = Next (pr, q) ->
  getitem data "name" = Val (JStr n) ->
  products st !! n = None ->
  is_nan pr = false ->
  fits_int64 q = true ->
  api_create_product data st
  = (set_products
       (<[n := {| name := n; price := column_float pr; quantity := q |}]>
          (products st)) st,
     Reply 200 (Text "Item added to the database")).
Proof.
  intros Hreq Hpq Hn Hnew Hpr Hq. unfold api_create_product.
  rewrite Hreq. simpl. rewrite Hpq. simpl. rewrite Hn. simpl.
  unfold add_product. simpl. rewrite (product_row_val pr q Hpr Hq), Hnew.
  reflexivity.
Qed.

(** A product created under a lower-case name is found, by any spelling
    of the name. *)
Lemma get_product_created (data : json) (st : Store) (n : string)
    (pr : float) (q : Z) (m : string) :
  require_keys data ["name"; "price"; "quantity"] = Next tt ->
  read_price_quantity data = Next (pr, q) ->
  getitem data "name" = Val (JStr n) ->
  products st !! n = None ->
  is_nan pr = false ->
  fits_int64 q = true ->
  lower m = n ->
  (api_get_product m (api_create_product data st).1).2
  = Reply 200
      (ProductJson {| name := n; price := column_float pr; quantity := q |}).
Proof.
  intros Hreq Hpq Hn Hnew Hpr Hq Hm.
  rewrite (create_product_stored data st n pr q Hreq Hpq Hn Hnew Hpr Hq).
  unfold api_get_product. simpl. rewrite Hm, lookup_insert_eq. reflexivity.
Qed.

(** A product created under a name with a capital is out of reach of
    [GET]: every lookup answers what it answered before. *)
Lemma get_product_misses (data : json) (st : Store) (n : string)
    (pr : float) (q : Z) (m : string) :
  require_keys data ["name"; "price"; "quantity"] = Next tt ->
  read_price_quantity data = Next (pr, q) ->
  getitem data "name" = Val (JStr n) ->
  products st !! n = None ->
  is_nan pr = false ->
  fits_int64 q = true ->
  lower n <> n ->
  (api_get_product m (api_create_product data st).1).2
  = (api_get_product m st).2.
Proof.
  intros Hreq Hpq Hn Hnew Hpr Hq Hcap.
  rewrite (create_product_stored data st n pr q Hreq Hpq Hn Hnew Hpr Hq).
  unfold api_get_product. simpl.
  rewrite lookup_insert_ne.
  - destruct (products st !! lower m); reflexivity.
  - intros E. apply Hcap. rewrite E. apply lower_idem.
Qed.

(** C4. Product create keeps the name as the payload spells it, while the
    lookups fold the name to lower case: ["Widget"] is stored under
    ["Widget"], and is found neither as ["widget"] nor as ["Widget"]. *)
Theorem create_widget_get_widget :
  (api_create_product
     (Sample.product_payload "Widget" (JFloat Sample.three_halves) (JInt 2))
     Sample.empty_store).2
  = Reply 200 (Text "Item added to the database")
  /\ products
       (api_create_product
          (Sample.product_payload "Widget" (JFloat Sample.three_halves) (JInt 2))
          Sample.empty_store).1 !! "Widget"
     = Some {| name := "Widget"; price := Sample.three_halves; quantity := 2 |}
  /\ products
       (api_create_product
          (Sample.product_payload "Widget" (JFloat Sample.three_halves) (JInt 2))
          Sample.empty_store).1 !! "widget"
     = None
  /\ (api_get_product "widget"
        (api_create_product
           (Sample.product_payload "Widget" (JFloat Sample.three_halves)
              (JInt 2))
           Sample.empty_store).1).2
     = not_found
  /\ (api_get_product "Widget"
        (api_create_product
           (Sample.product_payload "Widget" (JFloat Sample.three_halves)
              (JInt 2))
           Sample.empty_store).1).2
     = not_found.
Proof. repeat split; reflexivity. Qed.

(** A payload without [price] and without [quantity] is refused. *)
Lemma update_product_neither (n : string) (kvs : list (string * json))
    (st : Store) :
  assoc "price" kvs = None ->
  assoc "quantity" kvs = None ->
  api_update_product n (JObj kvs) st
  = (st, Reply 400 (Text "The JSON provided is invalid")).
Proof.
  assert (H : forall key, assoc key kvs = None
                          -> existsb (String.eqb key) (map fst kvs) = false).
  { intros key. induction kvs as [|[k v] rest IH]; simpl; [reflexivity|].
    rewrite (String.eqb_sym key k).
    destruct (String.eqb k key); [discriminate | exact IH]. }
  intros Hp Hq. unfold api_update_product. cbn [keys eval flow_bind].
  rewrite (H _ Hp), (H _ Hq). reflexivity.
Qed.

Lemma assoc_existsb (key : string) (kvs : list (string * json)) (v : json) :
  assoc key kvs = Some v -> existsb (String.eqb key) (map fst kvs) = true.
Proof.
  induction kvs as [|[k x] rest IH]; simpl; [discriminate|].
  rewrite (String.eqb_sym key k).
  destruct (String.eqb k key); [reflexivity | exact IH].
Qed.

(** A payload with [quantity] and without [price] gets past the check of
    the fields and stops on [data["price"]]. *)
Lemma update_product_quantity_only (n : string) (kvs : list (string * json))
    (v : json) (st : Store) :
  assoc "price" kvs = None ->
  assoc "quantity" kvs = Some v ->
  api_update_product n (JObj kvs) st = (st, Crash KeyError).
Proof.
  intros Hp Hq. unfold api_update_product. cbn [keys eval flow_bind].
  rewrite (assoc_existsb _ _ _ Hq), andb_false_r.
  unfold read_price_quantity. simpl. rewrite Hp. reflexivity.
Qed.

(** A payload with a price that is a number and without [quantity] does
    the same on [data["quantity"]]. *)
Lemma update_product_price_only (n : string) (kvs : list (string * json))
    (v : json) (pr : float) (st : Store) :
  assoc "price" kvs = Some v ->
  to_float v = Val pr ->
  assoc "quantity" kvs = None ->
  api_update_product n (JObj kvs) st = (st, Crash KeyError).
Proof.
  intros Hp Hv Hq. unfold api_update_product. cbn [keys eval flow_bind].
  rewrite (assoc_existsb _ _ _ Hp). cbn [negb andb].
  unfold read_price_quantity. simpl. rewrite Hp. simpl.
  rewrite Hv. simpl. rewrite Hq. reflexivity.
Qed.

(** With both fields, valid and such that the columns take them, and a
    product of that name, the update goes through. *)
Lemma update_product_both (n : string) (data : json) (st : Store)
    (ks : list string) (pr : float) (q : Z) (p : Product) :
  keys data = Val ks ->
  existsb (String.eqb "price") ks || existsb (String.eqb "quantity") ks
  = true ->
  read_price_quantity data = Next (pr, q) ->
  products st !! lower n = Some p ->
  is_nan pr = false ->
  fits_int64 q = true ->
  api_update_product n data st
  = (set_products
       (<[lower n := {| name := name p; price := column_float pr;
                        quantity := q |}]>
          (products st)) st,
     Reply 200 (Text "Product updated")).
Proof.
  intros Hk He Hpq Hp Hpr Hq. unfold api_update_product. rewrite Hk.
  cbn [eval flow_bind]. apply orb_true_iff in He.
  replace (negb (existsb (String.eqb "price") ks)
           && negb (existsb (String.eqb "quantity") ks)) with false
    by (destruct He as [-> | ->]; simpl; rewrite ?andb_false_r; reflexivity).
  rewrite Hpq, Hp, (product_row_val pr q Hpr Hq). reflexivity.
Qed.

(** C6. A payload with one of the two fields only is not refused for a
    missing field, and the update does not go through either: the handler
    reads both fields, and stops on the one that is not there with a
    [KeyError] that nothing catches.  A payload with neither field gets
    the 400. *)
Theorem update_product_one_field :
  api_update_product "bolt" (JObj [("price", JFloat Sample.three_halves)])
    Sample.bolt_store
  = (Sample.bolt_store, Crash KeyError)
  /\ api_update_product "bolt" (JObj [("quantity", JInt 7)]) Sample.bolt_store
     = (Sample.bolt_store, Crash KeyError)
  /\ api_update_product "bolt" (JObj []) Sample.bolt_store
     = (Sample.bolt_store, Reply 400 (Text "The JSON provided is invalid")).
Proof. repeat split; reflexivity. Qed.

(** Delete of a name that matches no product stops on
    [db.session.delete(None)]. *)
Lemma delete_product_missing (n : string) (st : Store) :
  products st !! lower n = None ->
  api_delete_product n st = (st, Crash UnmappedInstanceError).
Proof. intros H. unfold api_delete_product. rewrite H. reflexivity. Qed.

(** Update of a name that matches no product, with a valid payload, stops
    on [product.price = price] for [product] being [None]. *)
Lemma update_product_missing (n : string) (data : json) (st : Store)
    (ks : list string) (pr : float) (q : Z) :
  keys data = Val ks ->
  existsb (String.eqb "price") ks || existsb (String.eqb "quantity") ks
  = true ->
  read_price_quantity data = Next (pr, q) ->
  products st !! lower n = None ->
  api_update_product n data st = (st, Crash AttributeError).
Proof.
  intros Hk He Hpq Hp. unfold api_update_product. rewrite Hk.
  cbn [eval flow_bind]. apply orb_true_iff in He.
  replace (negb (existsb (String.eqb "price") ks)
           && negb (existsb (String.eqb "quantity") ks)) with false
    by (destruct He as [-> | ->]; simpl; rewrite ?andb_false_r; reflexivity).
  rewrite Hpq, Hp. reflexivity.
Qed.

(** C7. For a name that matches no product, [GET] answers 404, but
    delete and update go on with the [None] the lookup gave and end in an
    uncaught exception. *)
Theorem delete_update_ghost :
  api_get_product "ghost" Sample.bolt_store = (Sample.bolt_store, not_found)
  /\ api_delete_product "ghost" Sample.bolt_store
     = (Sample.bolt_store, Crash UnmappedInstanceError)
  /\ api_update_product "ghost"
       (JObj [("price", JFloat Sample.half); ("quantity", JInt 4)])
       Sample.bolt_store
     = (Sample.bolt_store, Crash AttributeError).
Proof. repeat split; reflexivity. Qed.

(** ** The invariant of products *)

(** The [try] block lets through no price below zero and no quantity
    below zero. *)
Lemma read_price_quantity_next (data : json) (pr : float) (q : Z) :
  read_price_quantity data = Next (pr, q) ->
  float_neg pr = false /\ 0 <= q.
Proof.
  unfold read_price_quantity. intros H. flow_next H.
  destruct (float_neg _) eqn:Hneg; simpl in H; [discriminate|].
  destruct (Z.ltb_spec a2 0); [discriminate|].
  injection H as <- <-. auto.
Qed.

(** Not below zero is: zero or above, or not a number. *)
Lemma float_neg_false (x : float) :
  float_neg x = false <-> float_nonneg x = true \/ x = S754_nan.
Proof.
  unfold float_neg, float_nonneg, fzero.
  destruct x as [s|s| |s m e]; try destruct s; simpl;
    split; intros H; auto; try discriminate;
    destruct H as [H|H]; discriminate.
Qed.

(** A row that the columns take keeps what the checks established, and
    its price is a number. *)
Lemma product_row_ok (pr pr' : float) (q q' : Z) (n : string) :
  float_neg pr = false /\ 0 <= q ->
  product_row pr q = Val (pr', q') ->
  product_ok {| name := n; price := pr'; quantity := q' |}
  /\ product_nonneg {| name := n; price := pr'; quantity := q' |}.
Proof.
  intros [Hpr Hq]. unfold product_row.
  destruct (negb (fits_int64 q)); [discriminate|].
  destruct (is_nan pr) eqn:Hnan; [discriminate|].
  intros [= <- <-]. unfold product_ok, product_nonneg. cbn [price quantity].
  destruct pr as [s|s| |s m e]; try destruct s; try discriminate;
    cbn; auto.
Qed.

Lemma store_ok_insert (st : Store) (n : string) (p : Product) :
  store_ok st -> product_ok p ->
  store_ok (set_products (<[n := p]> (products st)) st).
Proof.
  intros Hst Hp m p'. simpl.
  destruct (decide (n = m)) as [->|Hne].
  - rewrite lookup_insert_eq. intros [= <-]. exact Hp.
  - rewrite lookup_insert_ne by assumption. apply Hst.
Qed.

Lemma create_product_ok (data : json) (st : Store) :
  store_ok st -> store_ok (api_create_product data st).1.
Proof.
  intros Hst. unfold api_create_product.
  destruct (require_keys data _) as [[]|r]; simpl; [|exact Hst].
  destruct (read_price_quantity data) as [[pr q]|r] eqn:Hpq; simpl;
    [|exact Hst].
  destruct (getitem data "name") as [nv|e]; simpl; [|exact Hst].
  unfold add_product.
  destruct (key_of nv) as [n|e]; [|exact Hst].
  destruct (product_row pr q) as [[pr' q']|e] eqn:Hrow; [|exact Hst].
  destruct (products st !! n); [exact Hst|].
  apply store_ok_insert; [exact Hst|].
  apply read_price_quantity_next in Hpq.
  eapply product_row_ok; [exact Hpq | exact Hrow].
Qed.

Lemma update_product_ok (n : string) (data : json) (st : Store) :
  store_ok st -> store_ok (api_update_product n data st).1.
Proof.
  intros Hst. unfold api_update_product.
  destruct (keys data) as [ks|e]; cbn [eval flow_bind]; [|exact Hst].
  destruct (negb _ && negb _); [exact Hst|].
  destruct (read_price_quantity data) as [[pr q]|r] eqn:Hpq; [|exact Hst].
  destruct (products st !! lower n); [|exact Hst].
  destruct (product_row pr q) as [[pr' q']|e] eqn:Hrow; [|exact Hst].
  apply store_ok_insert; [exact Hst|].
  apply read_price_quantity_next in Hpq.
  eapply product_row_ok; [exact Hpq | exact Hrow].
Qed.

Lemma delete_product_ok (n : string) (st : Store) :
  store_ok st -> store_ok (api_delete_product n st).1.
Proof.
  intros Hst. unfold api_delete_product.
  destruct (products st !! lower n) as [found|]; [|exact Hst].
  intros m p'. simpl. intros H.
  apply lookup_delete_Some in H as [_ H]. eapply Hst, H.
Qed.

(** One turn of the processing loop leaves the price alone and a stock
    that is not below zero, whatever the stock and the request were. *)
Lemma process_item_ok (po : ProductsOrder) (p : Product) :
  float_neg (price p) = false -> product_ok (snd (process_item po p)).
Proof.
  intros Hp. split.
  - destruct (process_item_name po p) as (_ & _ & ->). exact Hp.
  - destruct (process_item_values po p) as [_ ->]. lia.
Qed.

Lemma process_loop_ok (items : list ProductsOrder) :
  forall ps : gmap string Product,
    (forall (n : string) (p : Product), ps !! n = Some p -> product_ok p) ->
    forall (n : string) (p : Product),
      (process_loop ps items).1.1 !! n = Some p -> product_ok p.
Proof.
  induction items as [|po rest IH]; intros ps Hps; simpl; [exact Hps|].
  destruct (ps !! product_name po) as [p0|] eqn:Hp0; simpl; [|exact Hps].
  pose proof (process_item_ok po p0 (proj1 (Hps _ _ Hp0))) as Hok.
  destruct (process_item po p0) as [po' p'].
  specialize (IH (<[product_name po := p']> ps)).
  destruct (process_loop (<[product_name po := p']> ps) rest)
    as [[ps' rest'] stop].
  simpl in *. apply IH. intros n p.
  destruct (decide (product_name po = n)) as [<-|Hne].
  - rewrite lookup_insert_eq. intros [= <-]. exact Hok.
  - rewrite lookup_insert_ne by assumption. apply Hps.
Qed.

(** Processing keeps the invariant, also when it stops half way. *)
Lemma process_order_ok (order_id : Z) (now : datetime) (st : Store) :
  store_ok st -> store_ok (api_process_order order_id now st).1.
Proof.
  intros Hst. unfold api_process_order.
  destruct (orders st !! order_id) as [o|]; [|exact Hst].
  pose proof (process_loop_ok (order_products o) (products st) Hst) as Hok.
  destruct (process_loop (products st) (order_products o))
    as [[ps items] stop].
  simpl in Hok. destruct stop; [exact Hok|].
  unfold api_get_order. simpl.
  destruct (_ !! order_id); exact Hok.
Qed.

(** The order handlers other than processing do not write products. *)
Lemma order_handlers_products (st : Store) :
  (forall data, products (api_create_order data st).1 = products st)
  /\ (forall order_id, products (api_delete_order order_id st).1 = products st)
  /\ (forall order_id data,
        products (api_update_order order_id data st).1 = products st).
Proof.
  split; [|split].
  - intros data. unfold api_create_order.
    destruct (order_fields data st) as [[[[[[cn ca] b] dc] dp] pos]|r];
      [|reflexivity].
    unfold add_order. destruct (negb _); [reflexivity|].
    destruct (negb _); reflexivity.
  - intros order_id. unfold api_delete_order.
    destruct (orders st !! order_id); reflexivity.
  - intros order_id data. unfold api_update_order.
    destruct (line_items data st) as [[items pos]|r]; [|reflexivity].
    destruct (delete_items st order_id items); [|reflexivity].
    unfold replace_products.
    destruct (orders st !! order_id); [|reflexivity].
    destruct (negb _); [reflexivity|]. destruct (negb _); reflexivity.
Qed.

(** Every request keeps the invariant: no product with a price below zero
    or a quantity below zero. *)
Lemma handle_ok (rq : request) (st : Store) :
  store_ok st -> store_ok (handle rq st).1.
Proof.
  intros Hst.
  destruct (order_handlers_products st) as (Hc & Hd & Hu).
  destruct rq; simpl.
  - unfold api_get_product. destruct (products st !! lower n); exact Hst.
  - apply create_product_ok, Hst.
  - apply delete_product_ok, Hst.
  - apply update_product_ok, Hst.
  - unfold api_get_order. destruct (orders st !! order_id); exact Hst.
  - apply process_order_ok, Hst.
  - intros n p. rewrite Hc. apply Hst.
  - intros n p. rewrite Hd. apply Hst.
  - intros n p. rewrite Hu. apply Hst.
Qed.

(** So it holds in every store that requests build from the empty one. *)
Lemma run_ok (rqs : list request) :
  forall st : Store, store_ok st -> store_ok (run rqs st).
Proof.
  induction rqs as [|rq rest IH]; intros st Hst; simpl; [exact Hst|].
  apply IH, handle_ok, Hst.
Qed.

(** X9. Whatever the requests, a store built from the empty one holds no
    product with a price below zero or a quantity below zero. *)
Lemma run_from_empty_ok (rqs : list request) :
  store_ok (run rqs Sample.empty_store).
Proof.
  apply run_ok. intros n p H. simpl in H.
  rewrite lookup_empty in H. discriminate.
Qed.

(** The invariant of the data model, kept by every request. *)
Lemma process_item_nonneg (po : ProductsOrder) (p : Product) :
  float_nonneg (price p) = true -> product_nonneg (snd (process_item po p)).
Proof.
  intros Hp. split.
  - destruct (process_item_name po p) as (_ & _ & ->). exact Hp.
  - destruct (process_item_values po p) as [_ ->]. lia.
Qed.

Lemma process_loop_nonneg (items : list ProductsOrder) :
  forall ps : gmap string Product,
    (forall (n : string) (p : Product), ps !! n = Some p -> product_nonneg p) ->
    forall (n : string) (p : Product),
      (process_loop ps items).1.1 !! n = Some p -> product_nonneg p.
Proof.
  induction items as [|po rest IH]; intros ps Hps; simpl; [exact Hps|].
  destruct (ps !! product_name po) as [p0|] eqn:Hp0; simpl; [|exact Hps].
  pose proof (process_item_nonneg po p0 (proj1 (Hps _ _ Hp0))) as Hok.
  destruct (process_item po p0) as [po' p'].
  specialize (IH (<[product_name po := p']> ps)).
  destruct (process_loop (<[product_name po := p']> ps) rest)
    as [[ps' rest'] stop].
  simpl in *. apply IH. intros n p.
  destruct (decide (product_name po = n)) as [<-|Hne].
  - rewrite lookup_insert_eq. intros [= <-]. exact Hok.
  - rewrite lookup_insert_ne by assumption. apply Hps.
Qed.

Lemma store_nonneg_insert (st : Store) (n : string) (p : Product) :
  store_nonneg st -> product_nonneg p ->
  store_nonneg (set_products (<[n := p]> (products st)) st).
Proof.
  intros Hst Hp m p'. simpl.
  destruct (decide (n = m)) as [->|Hne].
  - rewrite lookup_insert_eq. intros [= <-]. exact Hp.
  - rewrite lookup_insert_ne by assumption. apply Hst.
Qed.

Lemma handle_nonneg (rq : request) (st : Store) :
  store_nonneg st -> store_nonneg (handle rq st).1.
Proof.
  intros Hst.
  destruct (order_handlers_products st) as (Hc & Hd & Hu).
  destruct rq; simpl.
  - unfold api_get_product. destruct (products st !! lower n); exact Hst.
  - unfold api_create_product.
    destruct (require_keys data _) as [[]|r]; simpl; [|exact Hst].
    destruct (read_price_quantity data) as [[pr q]|r] eqn:Hpq; simpl;
      [|exact Hst].
    destruct (getitem data "name") as [nv|e]; simpl; [|exact Hst].
    unfold add_product.
    destruct (key_of nv) as [n|e]; [|exact Hst].
    destruct (product_row pr q) as [[pr' q']|e] eqn:Hrow; [|exact Hst].
    destruct (products st !! n); [exact Hst|].
    apply store_nonneg_insert; [exact Hst|].
    apply read_price_quantity_next in Hpq.
    eapply product_row_ok; [exact Hpq | exact Hrow].
  - unfold api_delete_product.
    destruct (products st !! lower n) as [found|]; [|exact Hst].
    intros m p'. simpl. intros H.
    apply lookup_delete_Some in H as [_ H]. eapply Hst, H.
  - unfold api_update_product.
    destruct (keys data) as [ks|e]; cbn [eval flow_bind]; [|exact Hst].
    destruct (negb _ && negb _); [exact Hst|].
    destruct (read_price_quantity data) as [[pr q]|r] eqn:Hpq; [|exact Hst].
    destruct (products st !! lower n); [|exact Hst].
    destruct (product_row pr q) as [[pr' q']|e] eqn:Hrow; [|exact Hst].
    apply store_nonneg_insert; [exact Hst|].
    apply read_price_quantity_next in Hpq.
    eapply product_row_ok; [exact Hpq | exact Hrow].
  - unfold api_get_order. destruct (orders st !! order_id); exact Hst.
  - unfold api_process_order.
    destruct (orders st !! order_id) as [o|]; [|exact Hst].
    pose proof (process_loop_nonneg (order_products o) (products st) Hst)
      as Hok.
    destruct (process_loop (products st) (order_products o))
      as [[ps items] stop].
    simpl in Hok. destruct stop; [exact Hok|].
    unfold api_get_order. simpl.
    destruct (_ !! order_id); exact Hok.
  - intros n p. rewrite Hc. apply Hst.
  - intros n p. rewrite Hd. apply Hst.
  - intros n p. rewrite Hu. apply Hst.
Qed.

Lemma run_nonneg (rqs : list request) :
  forall st : Store, store_nonneg st -> store_nonneg (run rqs st).
Proof.
  induction rqs as [|rq rest IH]; intros st Hst; simpl; [exact Hst|].
  apply IH, handle_nonneg, Hst.
Qed.





(** A price that is not a number passes the check [price < 0] and is
    stopped by the column: the request ends in an uncaught exception and
    nothing is written. *)
Lemma create_product_nan_refused :
  api_create_product
    (Sample.product_payload "washer" (JStr "nan") (JInt 1)) Sample.empty_store
  = (Sample.empty_store, Crash IntegrityError)
  /\ api_update_product "bolt"
       (JObj [("price", JStr "nan"); ("quantity", JInt 1)]) Sample.bolt_store
     = (Sample.bolt_store, Crash IntegrityError).
Proof. split; reflexivity. Qed.

(** * Further properties of the handlers *)

(** ** Missing fields *)

Lemma require_keys_missing (kvs : list (string * json))
    (pre post : list string) (key : string) :
  forallb (has_key kvs) pre = true ->
  has_key kvs key = false ->
  require_keys (JObj kvs) (pre ++ key :: post)%list = Done (missing_key key).
Proof.
  unfold has_key. intros Hpre Hkey.
  induction pre as [|k pre IH]; cbn [app require_keys contains eval flow_bind].
  - rewrite Hkey. reflexivity.
  - cbn [forallb] in Hpre. apply andb_true_iff in Hpre as [-> Hpre].
    apply IH, Hpre.
Qed.

(** X1. Product create answers a payload that lacks one of [name], [price],
    [quantity] with the 400 that names the first field missing, in that
    order, and writes nothing. *)
Theorem create_product_missing_key (kvs : list (string * json))
    (pre post : list string) (key : string) (st : Store) :
  (pre ++ key :: post)%list = ["name"; "price"; "quantity"] ->
  forallb (has_key kvs) pre = true ->
  has_key kvs key = false ->
  api_create_product (JObj kvs) st = (st, missing_key key).
Proof.
  intros Hks Hpre Hkey. unfold api_create_product.
  rewrite <- Hks, (require_keys_missing kvs pre post key Hpre Hkey).
  reflexivity.
Qed.

Lemma create_product_missing_key_price :
  api_create_product (JObj [("name", JStr "washer"); ("quantity", JInt 1)])
    Sample.bolt_store
  = (Sample.bolt_store, missing_key "price").
Proof.
  apply (create_product_missing_key
           [("name", JStr "washer"); ("quantity", JInt 1)]
           ["name"] ["quantity"] "price"); reflexivity.
Defined.

(** X2. Order create answers a payload that lacks one of its six fields with
    the 400 that names the first field missing, in the order
    [customer_name], [customer_address], [completed], [products],
    [date_created], [date_processed], and writes nothing. *)
Theorem create_order_missing_key (kvs : list (string * json))
    (pre post : list string) (key : string) (st : Store) :
  (pre ++ key :: post)%list = order_keys ->
  forallb (has_key kvs) pre = true ->
  has_key kvs key = false ->
  api_create_order (JObj kvs) st = (st, missing_key key).
Proof.
  intros Hks Hpre Hkey. unfold api_create_order, order_fields.
  rewrite <- Hks, (require_keys_missing kvs pre post key Hpre Hkey).
  reflexivity.
Qed.

Lemma create_order_missing_key_products :
  api_create_order
    (JObj [("customer_name", JStr "Tim"); ("customer_address", JStr "Vancouver");
           ("completed", JBool false); ("date_processed", JNull)])
    Sample.nut_store
  = (Sample.nut_store, missing_key "products").
Proof.
  apply (create_order_missing_key
           [("customer_name", JStr "Tim"); ("customer_address", JStr "Vancouver");
            ("completed", JBool false); ("date_processed", JNull)]
           ["customer_name"; "customer_address"; "completed"]
           ["date_created"; "date_processed"] "products"); reflexivity.
Defined.

(** ** Values below zero *)

Lemma getitem_object (data : json) (key : string) (v : json) :
  getitem data key = Val v ->
  exists kvs : list (string * json),
    data = JObj kvs /\ assoc key kvs = Some v /\ has_key kvs key = true.
Proof.
  destruct data as [| | | | | |kvs]; try discriminate. cbn [getitem].
  destruct (assoc key kvs) as [x|] eqn:Hk; [|discriminate].
  intros [= <-]. exists kvs. split; [reflexivity|]. split; [exact Hk|].
  eapply assoc_existsb, Hk.
Qed.

Lemma read_price_quantity_negative (data : json) (pv qv : json) (pr : float)
    (q : Z) :
  getitem data "price" = Val pv ->
  to_float pv = Val pr ->
  getitem data "quantity" = Val qv ->
  to_int qv = Val q ->
  float_neg pr = true \/ q < 0 ->
  read_price_quantity data = Done invalid_values.
Proof.
  intros Hpv Hpr Hqv Hq Hneg. unfold read_price_quantity.
  rewrite Hpv. cbn [eval_try flow_bind]. rewrite Hpr. cbn [eval_try flow_bind].
  rewrite Hqv. cbn [eval_try flow_bind]. rewrite Hq. cbn [eval_try flow_bind].
  destruct Hneg as [-> | Hlt]; [reflexivity|].
  apply Z.ltb_lt in Hlt. rewrite Hlt, orb_true_r. reflexivity.
Qed.

(** X3. A price below zero or a quantity below zero is refused with a 400 by
    product create and by product update, and nothing is written; update
    refuses before it looks the product up, so also for a name that
    matches no product. *)
Theorem product_negative_values (data : json) (pv qv : json) (pr : float)
    (q : Z) (st : Store) :
  contains data "name" = Val true ->
  getitem data "price" = Val pv ->
  to_float pv = Val pr ->
  getitem data "quantity" = Val qv ->
  to_int qv = Val q ->
  float_neg pr = true \/ q < 0 ->
  api_create_product data st = (st, invalid_values)
  /\ forall n : string, api_update_product n data st = (st, invalid_values).
Proof.
  intros Hname Hpv Hpr Hqv Hq Hneg.
  pose proof (read_price_quantity_negative data pv qv pr q Hpv Hpr Hqv Hq Hneg)
    as Hread.
  destruct (getitem_object _ _ _ Hpv) as (kvs & -> & _ & Hp).
  destruct (getitem_object _ _ _ Hqv) as (kvs' & [= <-] & _ & Hqk).
  unfold has_key in Hp, Hqk. split.
  - unfold api_create_product. cbn [require_keys].
    rewrite Hname. cbn [eval flow_bind contains].
    rewrite Hp, Hqk. cbn [eval flow_bind]. rewrite Hread. reflexivity.
  - intros n. unfold api_update_product. cbn [keys eval flow_bind].
    rewrite Hp. cbn [negb andb]. rewrite Hread. reflexivity.
Qed.

Lemma product_negative_values_sample :
  api_create_product
    (Sample.product_payload "washer" (JStr "-0.5") (JInt 3)) Sample.bolt_store
  = (Sample.bolt_store, invalid_values)
  /\ forall n : string,
       api_update_product n
         (Sample.product_payload "washer" (JStr "-0.5") (JInt 3))
         Sample.bolt_store
       = (Sample.bolt_store, invalid_values).
Proof.
  apply (product_negative_values
           (Sample.product_payload "washer" (JStr "-0.5") (JInt 3))
           (JStr "-0.5") (JInt 3) (S754_finite true 4503599627370496 (-53)) 3);
    [reflexivity | reflexivity | reflexivity | reflexivity | reflexivity
    | left; reflexivity].
Defined.

(** ** Round trips of products *)

Lemma float_nonneg_number (x : float) :
  float_nonneg x = true -> float_neg x = false /\ is_nan x = false.
Proof.
  unfold float_nonneg, float_neg, fzero.
  destruct x as [s|s| |s m e]; try destruct s; cbn; auto; discriminate.
Qed.

(** X4. A product created under a new name without capitals, with a price
    that is zero or above and a quantity that is zero or above and fits
    the integer column, is answered by [GET] under every ASCII spelling
    of the name, with the price and the quantity the payload coerces to
    (a zero price without its sign); the other products and the orders
    are as they were. *)
Theorem create_then_get_product (kvs : list (string * json)) (n m : string)
    (pv qv : json) (pr : float) (q : Z) (st : Store) :
  assoc "name" kvs = Some (JStr n) ->
  assoc "price" kvs = Some pv ->
  assoc "quantity" kvs = Some qv ->
  to_float pv = Val pr ->
  to_int qv = Val q ->
  float_nonneg pr = true ->
  0 <= q ->
  fits_int64 q = true ->
  products st !! n = None ->
  ascii_only m = true ->
  lower m = n ->
  (api_create_product (JObj kvs) st).2
  = Reply 200 (Text "Item added to the database")
  /\ api_get_product m (api_create_product (JObj kvs) st).1
     = ((api_create_product (JObj kvs) st).1,
        Reply 200
          (ProductJson
             {| name := n; price := column_float pr; quantity := q |}))
  /\ (forall k : string,
        k <> n ->
        products (api_create_product (JObj kvs) st).1 !! k = products st !! k)
  /\ orders (api_create_product (JObj kvs) st).1 = orders st.
Proof.
  intros Hn Hp Hq Hpr Hint Hpos Hq0 Hfit Hnew _ Hm.
  destruct (float_nonneg_number pr Hpos) as [Hneg Hnan].
  assert (Hreq : require_keys (JObj kvs) ["name"; "price"; "quantity"]
                 = Next tt).
  { cbn [require_keys].
    rewrite (assoc_contains _ _ _ Hn), (assoc_contains _ _ _ Hp),
      (assoc_contains _ _ _ Hq). reflexivity. }
  assert (Hread : read_price_quantity (JObj kvs) = Next (pr, q)).
  { unfold read_price_quantity. cbn [getitem]. rewrite Hp, Hq.
    cbn [eval_try flow_bind]. rewrite Hpr. cbn [eval_try flow_bind].
    rewrite Hint. cbn [eval_try flow_bind]. rewrite Hneg.
    destruct (Z.ltb_spec q 0); [lia | reflexivity]. }
  assert (Hname : getitem (JObj kvs) "name" = Val (JStr n))
    by (cbn [getitem]; rewrite Hn; reflexivity).
  rewrite (create_product_stored _ st n pr q Hreq Hread Hname Hnew Hnan Hfit).
  cbn [fst snd]. split; [reflexivity|]. split; [|split; [|reflexivity]].
  - unfold api_get_product. cbn [products set_products].
    rewrite Hm, lookup_insert_eq. reflexivity.
  - intros k Hk. cbn [products set_products].
    apply lookup_insert_ne. congruence.
Qed.

Lemma create_then_get_product_washer :
  (api_create_product
     (Sample.product_payload "washer" (JStr "0.5") (JFloat Sample.three_halves))
     Sample.bolt_store).2
  = Reply 200 (Text "Item added to the database")
  /\ api_get_product "WASHER"
       (api_create_product
          (Sample.product_payload "washer" (JStr "0.5")
             (JFloat Sample.three_halves))
          Sample.bolt_store).1
     = ((api_create_product
           (Sample.product_payload "washer" (JStr "0.5")
              (JFloat Sample.three_halves))
           Sample.bolt_store).1,
        Reply 200
          (ProductJson
             {| name := "washer"; price := Sample.half; quantity := 1 |}))
  /\ (forall k : string,
        k <> "washer" ->
        products
          (api_create_product
             (Sample.product_payload "washer" (JStr "0.5")
                (JFloat Sample.three_halves))
             Sample.bolt_store).1 !! k
        = products Sample.bolt_store !! k)
  /\ orders
       (api_create_product
          (Sample.product_payload "washer" (JStr "0.5")
             (JFloat Sample.three_halves))
          Sample.bolt_store).1
     = orders Sample.bolt_store.
Proof.
  apply (create_then_get_product
           [("name", JStr "washer"); ("price", JStr "0.5");
            ("quantity", JFloat Sample.three_halves)]
           "washer" "WASHER" (JStr "0.5") (JFloat Sample.three_halves)
           Sample.half 1 Sample.bolt_store);
    [reflexivity | reflexivity | reflexivity | reflexivity | reflexivity
    | reflexivity | lia | reflexivity | reflexivity | reflexivity
    | reflexivity].
Defined.



(** X6. An update with both fields, a price that is zero or above and a
    quantity that is zero or above and fits the integer column, on a
    product of the store: [GET] then answers the new price (a zero
    without its sign) and the new quantity under the old name, for
    every ASCII spelling of the name in either request; nothing else
    changes. *)
Theorem update_then_get_product (kvs : list (string * json)) (n m : string)
    (pv qv : json) (pr : float) (q : Z) (p : Product) (st : Store) :
  assoc "price" kvs = Some pv ->
  assoc "quantity" kvs = Some qv ->
  to_float pv = Val pr ->
  to_int qv = Val q ->
  float_nonneg pr = true ->
  0 <= q ->
  fits_int64 q = true ->
  ascii_only n = true ->
  ascii_only m = true ->
  products st !! lower n = Some p ->
  lower m = lower n ->
  (api_update_product n (JObj kvs) st).2 = Reply 200 (Text "Product updated")
  /\ api_get_product m (api_update_product n (JObj kvs) st).1
     = ((api_update_product n (JObj kvs) st).1,
        Reply 200
          (ProductJson
             {| name := name p; price := column_float pr; quantity := q |}))
  /\ (forall k : string,
        k <> lower n ->
        products (api_update_product n (JObj kvs) st).1 !! k
        = products st !! k)
  /\ orders (api_update_product n (JObj kvs) st).1 = orders st.
Proof.
  intros Hp Hq Hpr Hint Hpos Hq0 Hfit _ _ Hfound Hm.
  destruct (float_nonneg_number pr Hpos) as [Hneg Hnan].
  assert (Hread : read_price_quantity (JObj kvs) = Next (pr, q)).
  { unfold read_price_quantity. cbn [getitem]. rewrite Hp, Hq.
    cbn [eval_try flow_bind]. rewrite Hpr. cbn [eval_try flow_bind].
    rewrite Hint. cbn [eval_try flow_bind]. rewrite Hneg.
    destruct (Z.ltb_spec q 0); [lia | reflexivity]. }
  rewrite (update_product_both n (JObj kvs) st (map fst kvs) pr q p eq_refl);
    [|rewrite (assoc_existsb _ _ _ Hp); reflexivity | exact Hread
     | exact Hfound | exact Hnan | exact Hfit].
  cbn [fst snd]. split; [reflexivity|]. split; [|split; [|reflexivity]].
  - unfold api_get_product. cbn [products set_products].
    rewrite Hm, lookup_insert_eq. reflexivity.
  - intros k Hk. cbn [products set_products].
    apply lookup_insert_ne. congruence.
Qed.

Lemma update_then_get_product_bolt :
  (api_update_product "BOLT"
     (JObj [("price", JInt 1); ("quantity", JStr " 12 ")])
     Sample.bolt_store).2
  = Reply 200 (Text "Product updated")
  /\ api_get_product "Bolt"
       (api_update_product "BOLT"
          (JObj [("price", JInt 1); ("quantity", JStr " 12 ")])
          Sample.bolt_store).1
     = ((api_update_product "BOLT"
           (JObj [("price", JInt 1); ("quantity", JStr " 12 ")])
           Sample.bolt_store).1,
        Reply 200
          (ProductJson {| name := "bolt"; price := fone; quantity := 12 |}))
  /\ (forall k : string,
        k <> lower "BOLT" ->
        products
          (api_update_product "BOLT"
             (JObj [("price", JInt 1); ("quantity", JStr " 12 ")])
             Sample.bolt_store).1 !! k
        = products Sample.bolt_store !! k)
  /\ orders
       (api_update_product "BOLT"
          (JObj [("price", JInt 1); ("quantity", JStr " 12 ")])
          Sample.bolt_store).1
     = orders Sample.bolt_store.
Proof.
  apply (update_then_get_product
           [("price", JInt 1); ("quantity", JStr " 12 ")] "BOLT" "Bolt"
           (JInt 1) (JStr " 12 ") fone 12 Sample.bolt Sample.bolt_store);
    [reflexivity | reflexivity | reflexivity | reflexivity | reflexivity
    | lia | reflexivity | reflexivity | reflexivity | reflexivity
    | reflexivity].
Defined.

(** ** What a refused request leaves behind *)

(** The only exception the processing loop stops on is the one for a
    line item whose product is gone. *)
Lemma process_loop_stop (items : list ProductsOrder) :
  forall (ps : gmap string Product) (e : exn),
    (process_loop ps items).2 = Some e -> e = AttributeError.
Proof.
  induction items as [|po rest IH]; intros ps e; simpl; [discriminate|].
  destruct (ps !! product_name po) as [p|]; simpl; [|congruence].
  destruct (process_item po p) as [po' p'].
  specialize (IH (<[product_name po := p']> ps) e).
  destruct (process_loop (<[product_name po := p']> ps) rest)
    as [[ps' rest'] stop].
  exact IH.
Qed.

(** X7. A request writes only when it is answered with a 200, but for
    processing, which may have written when it stops on a line item whose
    product is gone: every 400, every 404 and every other failure leaves
    the store as it was. *)
Theorem handle_writes (rq : request) (st : Store) :
  (handle rq st).1 = st
  \/ (exists b : body, (handle rq st).2 = Reply 200 b)
  \/ (exists (order_id : Z) (now : datetime),
        rq = ProcessOrder order_id now
        /\ (handle rq st).2 = Crash AttributeError).
Proof.
  destruct rq; cbn [handle].
  - left. unfold api_get_product. destruct (products st !! lower n); reflexivity.
  - unfold api_create_product.
    destruct (require_keys data _ ;;; _) as [[nv [pr q]]|r]; [|left; reflexivity].
    unfold add_product. destruct (key_of nv) as [n|e]; [|left; reflexivity].
    destruct (product_row pr q) as [[pr' q']|e]; [|left; reflexivity].
    destruct (products st !! n); [left; reflexivity | right; left; eauto].
  - unfold api_delete_product.
    destruct (products st !! lower n); [right; left; eauto | left; reflexivity].
  - unfold api_update_product.
    destruct (flow_bind _ _) as [[pr q]|r]; [|left; reflexivity].
    destruct (products st !! lower n); [|left; reflexivity].
    destruct (product_row pr q) as [[pr' q']|e];
      [right; left; eauto | left; reflexivity].
  - left. unfold api_get_order. destruct (orders st !! order_id); reflexivity.
  - unfold api_process_order.
    destruct (orders st !! order_id) as [o|]; [|left; reflexivity].
    pose proof (process_loop_stop (order_products o) (products st)) as Hstop.
    destruct (process_loop (products st) (order_products o))
      as [[ps items] [e|]]; cbn [snd] in Hstop.
    + right; right. exists order_id, now. split; [reflexivity|].
      rewrite (Hstop e eq_refl). reflexivity.
    + right; left. unfold api_get_order. cbn [orders].
      rewrite lookup_insert_eq. eauto.
  - unfold api_create_order.
    destruct (order_fields data st) as [[[[[[cn ca] b] dc] dp] pos]|r];
      [|left; reflexivity].
    unfold add_order. destruct (negb _); [left; reflexivity|].
    destruct (negb _); [left; reflexivity | right; left; eauto].
  - unfold api_delete_order.
    destruct (orders st !! order_id); [right; left; eauto | left; reflexivity].
  - unfold api_update_order.
    destruct (line_items data st) as [[items pos]|r]; [|left; reflexivity].
    destruct (delete_items st order_id items); [|left; reflexivity].
    unfold replace_products.
    destruct (orders st !! order_id); [|left; reflexivity].
    destruct (negb _); [left; reflexivity|].
    destruct (negb _); [left; reflexivity | right; left; eauto].
Qed.

(** ** Keys *)

(** X8. Every request keeps every product under its name and every order
    under its id. *)
Theorem handle_keyed (rq : request) (st : Store) :
  store_keyed st -> store_keyed (handle rq st).1.
Proof.
  intros [Hps Hos].
  assert (Hins_p : forall (n : string) (p : Product),
             name p = n ->
             store_keyed (set_products (<[n := p]> (products st)) st)).
  { intros n p Hn. split; [|exact Hos]. intros k p'. cbn [products set_products].
    destruct (decide (n = k)) as [->|Hne].
    - rewrite lookup_insert_eq. congruence.
    - rewrite lookup_insert_ne by assumption. apply Hps. }
  assert (Hins_o : forall (k : Z) (o : Order),
             id o = k ->
             store_keyed (set_orders (<[k := o]> (orders st)) st)).
  { intros k o Hk. split; [exact Hps|]. intros k' o'. cbn [orders set_orders].
    destruct (decide (k = k')) as [->|Hne].
    - rewrite lookup_insert_eq. congruence.
    - rewrite lookup_insert_ne by assumption. apply Hos. }
  destruct rq; cbn [handle].
  - unfold api_get_product. destruct (products st !! lower n); split; assumption.
  - unfold api_create_product.
    destruct (require_keys data _ ;;; _) as [[nv [pr q]]|r]; [|split; assumption].
    unfold add_product. destruct (key_of nv) as [n|e]; [|split; assumption].
    destruct (product_row pr q) as [[pr' q']|e]; [|split; assumption].
    destruct (products st !! n); [split; assumption|].
    apply Hins_p. reflexivity.
  - unfold api_delete_product.
    destruct (products st !! lower n); [|split; assumption].
    split; [|exact Hos]. intros k p'. cbn [fst products set_products]. intros H.
    apply lookup_delete_Some in H as [_ H]. eapply Hps, H.
  - unfold api_update_product.
    destruct (flow_bind _ _) as [[pr q]|r]; [|split; assumption].
    destruct (products st !! lower n) as [p|] eqn:Hp; [|split; assumption].
    destruct (product_row pr q) as [[pr' q']|e]; [|split; assumption].
    apply Hins_p. cbn [name]. eapply Hps, Hp.
  - unfold api_get_order. destruct (orders st !! order_id); split; assumption.
  - unfold api_process_order.
    destruct (orders st !! order_id) as [o|] eqn:Ho; [|split; assumption].
    assert (Hloop : forall (items : list ProductsOrder)
                      (ps : gmap string Product),
               (forall n p, ps !! n = Some p -> name p = n) ->
               forall n p, (process_loop ps items).1.1 !! n = Some p
                           -> name p = n).
    { induction items as [|po rest IH]; intros ps Hk; simpl; [exact Hk|].
      destruct (ps !! product_name po) as [p0|] eqn:Hp0; simpl; [|exact Hk].
      pose proof (process_item_name po p0) as (_ & Hn & _).
      destruct (process_item po p0) as [po' p'].
      specialize (IH (<[product_name po := p']> ps)).
      destruct (process_loop (<[product_name po := p']> ps) rest)
        as [[ps' rest'] stop].
      simpl in *. apply IH. intros n p.
      destruct (decide (product_name po = n)) as [<-|Hne].
      - rewrite lookup_insert_eq. intros [= <-]. rewrite Hn. eapply Hk, Hp0.
      - rewrite lookup_insert_ne by assumption. apply Hk. }
    specialize (Hloop (order_products o) (products st) Hps).
    destruct (process_loop (products st) (order_products o))
      as [[ps items] stop].
    cbn [fst snd] in Hloop.
    assert (Hkeys : forall o' : Order,
               id o' = order_id ->
               store_keyed {| products := ps;
                              orders := <[order_id := o']> (orders st) |}).
    { intros o' Hid. split; [exact Hloop|]. intros k' o''. cbn [orders].
      destruct (decide (order_id = k')) as [->|Hne].
      - rewrite lookup_insert_eq. congruence.
      - rewrite lookup_insert_ne by assumption. apply Hos. }
    destruct stop.
    + apply Hkeys. cbn [id with_products]. eapply Hos, Ho.
    + unfold api_get_order. cbn [orders]. rewrite lookup_insert_eq.
      apply Hkeys. cbn [id with_products mark_processed]. eapply Hos, Ho.
  - unfold api_create_order.
    destruct (order_fields data st) as [[[[[[cn ca] b] dc] dp] pos]|r];
      [|split; assumption].
    unfold add_order. destruct (negb _); [split; assumption|].
    destruct (negb _); [split; assumption|].
    apply Hins_o. reflexivity.
  - unfold api_delete_order.
    destruct (orders st !! order_id); [|split; assumption].
    split; [exact Hps|]. intros k o'. cbn [fst orders set_orders]. intros H.
    apply lookup_delete_Some in H as [_ H]. eapply Hos, H.
  - unfold api_update_order.
    destruct (line_items data st) as [[items pos]|r]; [|split; assumption].
    destruct (delete_items st order_id items); [|split; assumption].
    unfold replace_products.
    destruct (orders st !! order_id) as [o|] eqn:Ho; [|split; assumption].
    destruct (negb _); [split; assumption|].
    destruct (negb _); [split; assumption|].
    apply Hins_o. cbn [id with_products]. eapply Hos, Ho.
Qed.

Lemma handle_keyed_sample :
  store_keyed
    (handle (ProcessOrder 1 Sample.morning) Sample.small_store).1.
Proof.
  apply (handle_keyed (ProcessOrder 1 Sample.morning) Sample.small_store).
  split.
  - intros n p H. cbn [products Sample.small_store] in H.
    apply lookup_insert_Some in H as [[<- <-]|[_ H]]; [reflexivity|].
    apply lookup_singleton_Some in H as [<- <-]. reflexivity.
  - intros k o H. cbn [orders Sample.small_store] in H.
    apply lookup_singleton_Some in H as [<- <-]. reflexivity.
Defined.

(** ** Orders that are not there *)

Lemma check_products_done (st : Store) (items : list json) (r : response) :
  check_products st items = Done r -> is_rejection r = true.
Proof.
  induction items as [|x rest IH]; simpl; [discriminate|].
  destruct (getitem x "product_name") as [k|e]; simpl;
    [|intros [= <-]; reflexivity].
  destruct (session_get_product st k) as [[p|]|e]; simpl;
    [exact IH | |]; intros [= <-]; reflexivity.
Qed.

Lemma build_product_orders_done (st : Store) (items : list json)
    (r : response) :
  build_product_orders st items = Done r -> is_rejection r = true.
Proof.
  assert (Htry : forall (A : Type) (x : res A) (d : response),
             eval_try invalid_quantity x = Done d -> is_rejection d = true).
  { intros A x d H. eapply eval_try_done, H. reflexivity. }
  induction items as [|x rest IH]; cbn [build_product_orders]; [discriminate|].
  intros H.
  destruct (eval_try invalid_quantity (getitem x "product_name"))
    as [k|d] eqn:Hk; cbn [flow_bind] in H;
    [|injection H as <-; eapply Htry, Hk].
  destruct (eval_try invalid_quantity (session_get_product st k))
    as [[p|]|d] eqn:Hf; cbn [flow_bind] in H;
    [|injection H as <-; reflexivity|injection H as <-; eapply Htry, Hf].
  destruct (eval_try invalid_quantity (getitem x "quantity"))
    as [qv|d] eqn:Hqv; cbn [flow_bind] in H;
    [|injection H as <-; eapply Htry, Hqv].
  destruct (eval_try invalid_quantity (to_int qv))
    as [q|d] eqn:Hq; cbn [flow_bind] in H;
    [|injection H as <-; eapply Htry, Hq].
  destruct (q <? 0); [injection H as <-; reflexivity|].
  destruct (eval_try invalid_quantity (key_of k))
    as [n|d] eqn:Hn; cbn [flow_bind] in H;
    [|injection H as <-; eapply Htry, Hn].
  destruct (build_product_orders st rest) as [pos|d] eqn:Hrest;
    cbn [flow_bind] in H; [discriminate|].
  injection H as <-. apply IH. reflexivity.
Qed.

Lemma line_items_done (data : json) (st : Store) (r : response) :
  line_items data st = Done r -> is_rejection r = true.
Proof.
  unfold line_items. intros H.
  destruct (eval (iterate data)) as [items|r0] eqn:Hit; cbn [flow_bind] in H;
    [|injection H as <-; eapply eval_done, Hit].
  destruct (check_items items) as [[]|r1] eqn:Hci; cbn [flow_bind] in H;
    [|injection H as <-; eapply check_items_done, Hci].
  destruct (check_products st items) as [[]|r2] eqn:Hcp; cbn [flow_bind] in H;
    [|injection H as <-; eapply check_products_done, Hcp].
  destruct (build_product_orders st items) as [pos|r3] eqn:Hb;
    cbn [flow_bind] in H; [discriminate|].
  injection H as <-. eapply build_product_orders_done, Hb.
Qed.

(** X10. For an id that is the id of no order, the four handlers that take an
    order id end in an uncaught exception or, for the replacement of line
    items, in a refusal; none of them answers 404, and none writes. *)
Theorem order_missing (order_id : Z) (st : Store) :
  orders st !! order_id = None ->
  api_get_order order_id st = (st, Crash AttributeError)
  /\ (forall now : datetime,
        api_process_order order_id now st = (st, Crash AttributeError))
  /\ api_delete_order order_id st = (st, Crash UnmappedInstanceError)
  /\ (forall data : json,
        (api_update_order order_id data st).1 = st
        /\ is_rejection (api_update_order order_id data st).2 = true).
Proof.
  intros Ho. split; [|split; [|split]].
  - unfold api_get_order. rewrite Ho. reflexivity.
  - intros now. unfold api_process_order. rewrite Ho. reflexivity.
  - unfold api_delete_order. rewrite Ho. reflexivity.
  - intros data. unfold api_update_order.
    destruct (line_items data st) as [[items pos]|r] eqn:Hv;
      [|split; [reflexivity | eapply line_items_done, Hv]].
    destruct (line_items_next _ _ _ _ Hv) as (_ & _ & Hcp & _).
    destruct items as [|item rest].
    + cbn [delete_items]. unfold replace_products. rewrite Ho.
      split; reflexivity.
    + destruct (check_products_next st _ Hcp item (or_introl eq_refl))
        as (n & p & Hn & _).
      rewrite (delete_items_missing st order_id (item :: rest) Hcp item n
                 (or_introl eq_refl) Hn).
      * split; reflexivity.
      * unfold get_line_item. rewrite Ho. reflexivity.
Qed.

Lemma order_missing_sample :
  api_get_order 7 Sample.bolt_store = (Sample.bolt_store, Crash AttributeError)
  /\ (forall now : datetime,
        api_process_order 7 now Sample.bolt_store
        = (Sample.bolt_store, Crash AttributeError))
  /\ api_delete_order 7 Sample.bolt_store
     = (Sample.bolt_store, Crash UnmappedInstanceError)
  /\ (forall data : json,
        (api_update_order 7 data Sample.bolt_store).1 = Sample.bolt_store
        /\ is_rejection (api_update_order 7 data Sample.bolt_store).2 = true).
Proof. apply (order_missing 7 Sample.bolt_store). reflexivity. Defined.

(** ** Round trips of orders *)

(** X11. The delete of an order removes it with its line items: [GET] on its
    id then fails, no line item is found under the id, the other
    orders are as they were, and no stock comes back to the products. *)
Theorem delete_then_get_order (order_id : Z) (o : Order) (st : Store) :
  orders st !! order_id = Some o ->
  (api_delete_order order_id st).2
  = Reply 200 (Text "Order deleted from the database")
  /\ api_get_order order_id (api_delete_order order_id st).1
     = ((api_delete_order order_id st).1, Crash AttributeError)
  /\ (forall n : string,
        get_line_item (api_delete_order order_id st).1 n order_id = None)
  /\ (forall k : Z,
        k <> order_id ->
        orders (api_delete_order order_id st).1 !! k = orders st !! k)
  /\ products (api_delete_order order_id st).1 = products st.
Proof.
  intros Ho. unfold api_delete_order. rewrite Ho. cbn [fst snd].
  split; [reflexivity|]. split; [|split; [|split; [|reflexivity]]].
  - unfold api_get_order. cbn [orders set_orders].
    rewrite lookup_delete_eq. reflexivity.
  - intros n. unfold get_line_item. cbn [orders set_orders].
    rewrite lookup_delete_eq. reflexivity.
  - intros k Hk. cbn [orders set_orders]. apply lookup_delete_ne. congruence.
Qed.

Lemma delete_then_get_order_done :
  (api_delete_order 1 Sample.done_store).2
  = Reply 200 (Text "Order deleted from the database")
  /\ api_get_order 1 (api_delete_order 1 Sample.done_store).1
     = ((api_delete_order 1 Sample.done_store).1, Crash AttributeError)
  /\ (forall n : string,
        get_line_item (api_delete_order 1 Sample.done_store).1 n 1 = None)
  /\ (forall k : Z,
        k <> 1 ->
        orders (api_delete_order 1 Sample.done_store).1 !! k
        = orders Sample.done_store !! k)
  /\ products (api_delete_order 1 Sample.done_store).1
     = products Sample.done_store.
Proof.
  apply (delete_then_get_order 1 Sample.done_order Sample.done_store).
  reflexivity.
Defined.

(** X12. A valid order-create payload whose customer and date fields are
    texts ([date_processed] a text or null), and whose line items name
    different products with quantities that fit the integer column, is
    persisted under a new id: [GET] on that id answers the order that
    create answered, with the fields of the payload and its line items
    in the order of the payload, with the quantities as integers; the
    orders that were there are untouched, and so is the stock, whatever
    the quantities asked for. *)
Theorem create_then_get_order (data : json) (st : Store) (cn ca : json)
    (b : bool) (dc dp : json) (pos : list ProductsOrder) :
  valid_order_payload st data = Some (cn, ca, b, dc, dp, pos) ->
  is_text cn && is_text ca && is_text dc && is_text_or_null dp = true ->
  distinct (map product_name pos) = true ->
  forallb fits_int64 (map po_quantity pos) = true ->
  exists k : Z,
    let o := {| id := k; customer_name := cn; customer_address := ca;
                completed := b; date_created := dc; date_processed := dp;
                order_products := pos |} in
    orders st !! k = None
    /\ (api_create_order data st).2 = Reply 200 (OrderJson o)
    /\ api_get_order k (api_create_order data st).1
       = ((api_create_order data st).1, Reply 200 (OrderJson o))
    /\ (forall k' : Z,
          k' <> k ->
          orders (api_create_order data st).1 !! k' = orders st !! k')
    /\ products (api_create_order data st).1 = products st.
Proof.
  intros Hv Htext Hd _. exists (next_order_id (orders st)). cbv zeta.
  assert (Hb : bindable cn && bindable ca && bindable dc && bindable dp = true).
  { apply andb_true_iff in Htext as [Htext Hdp].
    apply andb_true_iff in Htext as [Htext Hdc].
    apply andb_true_iff in Htext as [Hcn Hca].
    destruct cn, ca, dc, dp; try discriminate; reflexivity. }
  unfold api_create_order.
  rewrite (valid_order_payload_passes _ _ _ _ _ _ _ _ Hv).
  unfold add_order. rewrite Hb, Hd. cbn [negb fst snd id].
  split; [apply next_order_id_fresh|]. split; [reflexivity|].
  split; [|split; [|reflexivity]].
  - unfold api_get_order. cbn [orders set_orders].
    rewrite lookup_insert_eq. reflexivity.
  - intros k' Hk. cbn [orders set_orders]. apply lookup_insert_ne. congruence.
Qed.

Lemma create_then_get_order_nuts :
  exists k : Z,
    let o := {| id := k; customer_name := JStr "Tim";
                customer_address := JStr "Vancouver"; completed := false;
                date_created := JStr "2024-03-07 09:05";
                date_processed := JNull;
                order_products := [Sample.line "nut" 40] |} in
    orders Sample.nut_order_store !! k = None
    /\ (api_create_order (Sample.order_payload false [Sample.item "nut" 40])
          Sample.nut_order_store).2
       = Reply 200 (OrderJson o)
    /\ api_get_order k
         (api_create_order (Sample.order_payload false [Sample.item "nut" 40])
            Sample.nut_order_store).1
       = ((api_create_order (Sample.order_payload false [Sample.item "nut" 40])
             Sample.nut_order_store).1,
          Reply 200 (OrderJson o))
    /\ (forall k' : Z,
          k' <> k ->
          orders
            (api_create_order
               (Sample.order_payload false [Sample.item "nut" 40])
               Sample.nut_order_store).1 !! k'
          = orders Sample.nut_order_store !! k')
    /\ products
         (api_create_order (Sample.order_payload false [Sample.item "nut" 40])
            Sample.nut_order_store).1
       = products Sample.nut_order_store.
Proof.
  apply (create_then_get_order
           (Sample.order_payload false [Sample.item "nut" 40])
           Sample.nut_order_store (JStr "Tim") (JStr "Vancouver") false
           (JStr "2024-03-07 09:05") JNull [Sample.line "nut" 40]);
    reflexivity.
Defined.

(** ** More on processing *)

(** The loop adds no product. *)
Lemma process_loop_none (items : list ProductsOrder) :
  forall (ps : gmap string Product) (n : string),
    ps !! n = None -> (process_loop ps items).1.1 !! n = None.
Proof.
  induction items as [|po rest IH]; intros ps n Hn; simpl; [exact Hn|].
  destruct (ps !! product_name po) as [p|] eqn:Hp; simpl; [|exact Hn].
  destruct (process_item po p) as [po' p'].
  specialize (IH (<[product_name po := p']> ps) n).
  destruct (process_loop (<[product_name po := p']> ps) rest)
    as [[ps' rest'] stop].
  simpl in *. apply IH. rewrite lookup_insert_ne; [exact Hn | congruence].
Qed.





(** X20. What processing takes from a product it writes into the line item:
    on a well-formed order, for every line item, the stock before less
    the stock after is the quantity the line item has afterwards, and
    that is never more than was asked for. *)
Theorem process_order_conserves (order_id : Z) (now : datetime) (st : Store)
    (o : Order) (i : nat) (po : ProductsOrder) (p : Product) :
  orders st !! order_id = Some o ->
  wf_items (products st) (order_products o) = true ->
  order_products o !! i = Some po ->
  products st !! product_name po = Some p ->
  exists (o' : Order) (po' : ProductsOrder) (p' : Product),
    orders (api_process_order order_id now st).1 !! order_id = Some o'
    /\ order_products o' !! i = Some po'
    /\ products (api_process_order order_id now st).1 !! product_name po
       = Some p'
    /\ product_name po' = product_name po
    /\ quantity p - quantity p' = po_quantity po'
    /\ po_quantity po' <= po_quantity po.
Proof.
  intros Ho Hwf Hi Hp.
  rewrite (process_order_wf _ now _ _ Ho Hwf). cbn [fst].
  destruct (process_loop_spec _ _ Hwf) as (_ & _ & Hitems).
  destruct (Hitems i po p Hi Hp) as [Hpo' Hp'].
  eexists. exists (fst (process_item po p)), (snd (process_item po p)).
  split; [apply lookup_insert_eq|].
  cbn [order_products mark_processed with_products products].
  split; [exact Hpo'|]. split; [exact Hp'|].
  split; [apply process_item_name|].
  destruct (process_item_values po p) as [-> ->]. lia.
Qed.

Lemma process_order_conserves_bolt :
  exists (o' : Order) (po' : ProductsOrder) (p' : Product),
    orders (api_process_order 1 Sample.morning Fixture.pair_store).1 !! 1
    = Some o'
    /\ order_products o' !! 0%nat = Some po'
    /\ products (api_process_order 1 Sample.morning Fixture.pair_store).1
         !! product_name (Sample.line "bolt" 5)
       = Some p'
    /\ product_name po' = product_name (Sample.line "bolt" 5)
    /\ quantity Sample.bolt - quantity p' = po_quantity po'
    /\ po_quantity po' <= po_quantity (Sample.line "bolt" 5).
Proof.
  apply (process_order_conserves 1 Sample.morning Fixture.pair_store
           Fixture.pair_order 0 (Sample.line "bolt" 5) Sample.bolt);
    reflexivity.
Defined.

(** One turn of the loop on a stock and a request that are not below
    zero leaves a stock between zero and what it was. *)
Lemma process_item_bounds (po : ProductsOrder) (p : Product) :
  0 <= quantity p ->
  0 <= po_quantity po ->
  0 <= quantity (snd (process_item po p)) <= quantity p.
Proof.
  intros Hp Hq. destruct (process_item_values po p) as [_ ->]. lia.
Qed.

Lemma process_loop_bounds (items : list ProductsOrder) :
  forall ps : gmap string Product,
    (forall (n : string) (p : Product), ps !! n = Some p -> 0 <= quantity p) ->
    (forall po : ProductsOrder, In po items -> 0 <= po_quantity po) ->
    forall (n : string) (p : Product),
      ps !! n = Some p ->
      exists p' : Product,
        (process_loop ps items).1.1 !! n = Some p'
        /\ name p' = name p
        /\ price p' = price p
        /\ 0 <= quantity p' <= quantity p.
Proof.
  induction items as [|po rest IH]; intros ps Hps Hitems n p Hn.
  - exists p. cbn [process_loop fst]. split; [exact Hn|].
    specialize (Hps n p Hn). repeat split; lia.
  - cbn [process_loop].
    destruct (ps !! product_name po) as [p0|] eqn:Hp0.
    + pose proof (process_item_name po p0) as (_ & Hname & Hprice).
      pose proof (process_item_bounds po p0 (Hps _ _ Hp0)
                    (Hitems po (or_introl eq_refl))) as Hb.
      destruct (process_item po p0) as [po' p'] eqn:Hstep.
      cbn [fst snd] in Hname, Hprice, Hb.
      assert (Hps' : forall (m : string) (x : Product),
                 <[product_name po := p']> ps !! m = Some x
                 -> 0 <= quantity x).
      { intros m x. destruct (decide (product_name po = m)) as [<-|Hne].
        - rewrite lookup_insert_eq. intros [= <-]. lia.
        - rewrite lookup_insert_ne by assumption. apply Hps. }
      assert (Hrest : forall po1 : ProductsOrder,
                 In po1 rest -> 0 <= po_quantity po1)
        by (intros po1 H1; apply Hitems; right; exact H1).
      destruct (decide (product_name po = n)) as [<-|Hne].
      * destruct (IH (<[product_name po := p']> ps) Hps' Hrest
                    (product_name po) p' (lookup_insert_eq _ _ _))
          as (p'' & Hl & Hn' & Hpr' & Hq').
        rewrite Hp0 in Hn. injection Hn as <-.
        destruct (process_loop (<[product_name po := p']> ps) rest)
          as [[ps' rest'] stop].
        exists p''. cbn [fst] in *. split; [exact Hl|].
        repeat split; try congruence; lia.
      * destruct (IH (<[product_name po := p']> ps) Hps' Hrest n p)
          as (p'' & Hl & Hrest').
        { rewrite lookup_insert_ne by assumption. exact Hn. }
        destruct (process_loop (<[product_name po := p']> ps) rest)
          as [[ps' rest'] stop].
        exists p''. cbn [fst] in *. split; [exact Hl | exact Hrest'].
    + exists p. cbn [fst]. split; [exact Hn|].
      specialize (Hps n p Hn). repeat split; lia.
Qed.

(** X21. Processing only ever takes from the stock.  Whatever the order, well
    formed or not, and whether the handler answers or stops half way:
    when no stock and no requested quantity of the order is below zero,
    every product is still there afterwards, under its name and at its
    price, with a stock between zero and what it was; and no product
    comes into being. *)
Theorem process_order_takes (order_id : Z) (now : datetime) (st : Store) :
  (forall (n : string) (p : Product),
      products st !! n = Some p -> 0 <= quantity p) ->
  (forall (o : Order) (po : ProductsOrder),
      orders st !! order_id = Some o ->
      In po (order_products o) -> 0 <= po_quantity po) ->
  (forall (n : string) (p : Product),
      products st !! n = Some p ->
      exists p' : Product,
        products (api_process_order order_id now st).1 !! n = Some p'
        /\ name p' = name p
        /\ price p' = price p
        /\ 0 <= quantity p' <= quantity p)
  /\ (forall n : string,
        products st !! n = None ->
        products (api_process_order order_id now st).1 !! n = None).
Proof.
  intros Hps Hq. unfold api_process_order.
  destruct (orders st !! order_id) as [o|] eqn:Ho.
  - pose proof (process_loop_bounds (order_products o) (products st) Hps
                  (fun po => Hq o po eq_refl)) as Hb.
    pose proof (process_loop_none (order_products o) (products st)) as Hnone.
    destruct (process_loop (products st) (order_products o))
      as [[ps items] stop].
    cbn [fst] in Hb, Hnone.
    assert (Hsame : forall r : Store * response,
               products r.1 = ps ->
               (forall (n : string) (p : Product),
                   products st !! n = Some p ->
                   exists p' : Product,
                     products r.1 !! n = Some p'
                     /\ name p' = name p /\ price p' = price p
                     /\ 0 <= quantity p' <= quantity p)
               /\ (forall n : string,
                     products st !! n = None -> products r.1 !! n = None)).
    { intros r ->. split; [exact Hb | exact Hnone]. }
    destruct stop; apply Hsame; [reflexivity|].
    unfold api_get_order. cbn [orders].
    rewrite lookup_insert_eq. reflexivity.
  - split.
    + intros n p Hn. exists p. split; [exact Hn|].
      specialize (Hps n p Hn). repeat split; lia.
    + intros n Hn. exact Hn.
Qed.

Lemma process_order_takes_dangling :
  (forall (n : string) (p : Product),
      products Fixture.dangling_store !! n = Some p ->
      exists p' : Product,
        products (api_process_order 1 Sample.morning Fixture.dangling_store).1
          !! n = Some p'
        /\ name p' = name p
        /\ price p' = price p
        /\ 0 <= quantity p' <= quantity p)
  /\ (forall n : string,
        products Fixture.dangling_store !! n = None ->
        products (api_process_order 1 Sample.morning Fixture.dangling_store).1
          !! n = None).
Proof.
  apply (process_order_takes 1 Sample.morning Fixture.dangling_store).
  - intros n p H. cbn [products Fixture.dangling_store] in H.
    apply lookup_singleton_Some in H as [_ <-]. cbn. lia.
  - intros o po H Hin. cbn [orders Fixture.dangling_store] in H.
    apply lookup_singleton_Some in H as [_ <-].
    cbn in Hin. destruct Hin as [<-|[<-|[]]]; cbn; lia.
Defined.

(** Five bolts asked of three, then the same order once more. *)
Lemma process_order_twice_bolt :
  let st1 := (api_process_order 1 Sample.morning Sample.bolt_store).1 in
  exists o1 : Order,
    orders st1 !! 1 = Some o1
    /\ completed o1 = true
    /\ (api_process_order 1 Sample.morning st1).2
       = Reply 200
           (OrderJson
              (mark_processed (strftime Sample.morning)
                 (with_products
                    (process_loop (products st1) (order_products o1)).1.2 o1)))
    /\ forall (i : nat) (po : ProductsOrder) (p : Product),
         order_products Sample.bolt_order !! i = Some po ->
         products Sample.bolt_store !! product_name po = Some p ->
         (quantity <$> products (api_process_order 1 Sample.morning st1).1
                         !! product_name po)
         = Some (Z.max 0 (Z.max 0 (quantity p - po_quantity po)
                          - Z.min (po_quantity po) (quantity p))).
Proof.
  apply (process_order_twice 1 Sample.morning Sample.morning Sample.bolt_store
           Sample.bolt_order); reflexivity.
Defined.



(** ** Timestamps *)

(** X24. The printed time tells two minutes apart: different times in the
    range of four-digit years give different texts. *)
Theorem strftime_distinct (t1 t2 : datetime) :
  valid_datetime t1 = true ->
  valid_datetime t2 = true ->
  t1 <> t2 ->
  strftime t1 <> strftime t2.
Proof.
  intros H1 H2 Hne E. apply Hne.
  apply read_timestamp_strftime in H1, H2.
  rewrite E in H1. congruence.
Qed.

Lemma strftime_distinct_morning :
  strftime Sample.morning
  <> strftime {| year := 2024; month := 3; day := 8; hour := 7; minute := 31 |}.
Proof.
  apply (strftime_distinct Sample.morning
           {| year := 2024; month := 3; day := 8; hour := 7; minute := 31 |});
    [reflexivity | reflexivity | discriminate].
Defined.

(** ** Line items that are refused *)

Lemma check_keys_extraneous (ks : list string) :
  forallb allowed_key ks = false -> check_keys ks = Done extraneous_key.
Proof.
  induction ks as [|k rest IH]; cbn [forallb check_keys]; [discriminate|].
  unfold allowed_key at 1.
  destruct (String.eqb k "product_name" || String.eqb k "quantity");
    [exact IH | reflexivity].
Qed.

Lemma check_items_app (pre rest : list json) :
  check_items pre = Next tt ->
  check_items (pre ++ rest) = check_items rest.
Proof.
  induction pre as [|x pre IH]; cbn [app check_items]; [reflexivity|].
  intros H. apply flow_bind_next in H as (ks & Hks & H).
  apply flow_bind_next in H as ([] & Hck & H).
  rewrite Hks. cbn [flow_bind]. rewrite Hck. cbn [flow_bind]. apply IH, H.
Qed.

(** X13. A line item with a key besides [product_name] and [quantity] is
    refused with a 400 by order create and by the replacement of line
    items, when the items before it have none; the products are not
    looked up for that, and nothing is written. *)
Theorem order_extraneous_key (st : Store) (pre post : list json)
    (kvs : list (string * json)) :
  check_items pre = Next tt ->
  forallb allowed_key (map fst kvs) = false ->
  (forall order_id : Z,
      api_update_order order_id (JList (pre ++ JObj kvs :: post)) st
      = (st, extraneous_key))
  /\ (forall data : json,
        require_keys data order_keys = Next tt ->
        getitem data "products" = Val (JList (pre ++ JObj kvs :: post)) ->
        api_create_order data st = (st, extraneous_key)).
Proof.
  intros Hpre Hkvs.
  assert (Hci : check_items (pre ++ JObj kvs :: post) = Done extraneous_key).
  { rewrite (check_items_app _ _ Hpre). cbn [check_items keys eval flow_bind].
    rewrite (check_keys_extraneous _ Hkvs). reflexivity. }
  split.
  - intros order_id. unfold api_update_order, line_items.
    cbn [iterate eval flow_bind]. rewrite Hci. reflexivity.
  - intros data Hreq Hp. unfold api_create_order, order_fields.
    rewrite Hreq. cbn [flow_bind]. rewrite Hp. cbn [iterate eval flow_bind].
    rewrite Hci. reflexivity.
Qed.

Lemma order_extraneous_key_price :
  (forall order_id : Z,
      api_update_order order_id
        (JList [Sample.item "nut" 1;
                JObj [("product_name", JStr "ghost"); ("price", JInt 1)]])
        Sample.nut_order_store
      = (Sample.nut_order_store, extraneous_key))
  /\ api_create_order
       (Sample.order_payload false
          [Sample.item "nut" 1;
           JObj [("product_name", JStr "ghost"); ("price", JInt 1)]])
       Sample.nut_order_store
     = (Sample.nut_order_store, extraneous_key).
Proof.
  destruct (order_extraneous_key Sample.nut_order_store [Sample.item "nut" 1]
              [] [("product_name", JStr "ghost"); ("price", JInt 1)])
    as [Hu Hc]; [reflexivity | reflexivity |].
  split; [exact Hu|]. apply Hc; reflexivity.
Defined.

(** X14. Order create wants a JSON boolean for [completed]: when the fields
    are there and the line items pass the checks of keys and of products,
    any other value is refused with a 400, before the quantities are
    looked at, and nothing is written. *)
Theorem create_order_completed_not_bool (data : json) (st : Store)
    (pv cv : json) (items : list json) :
  require_keys data order_keys = Next tt ->
  getitem data "products" = Val pv ->
  iterate pv = Val items ->
  check_items items = Next tt ->
  check_products st items = Next tt ->
  getitem data "completed" = Val cv ->
  is_bool cv = None ->
  api_create_order data st = (st, invalid_completed).
Proof.
  intros Hreq Hpv Hit Hci Hcp Hcv Hb. unfold api_create_order, order_fields.
  rewrite Hreq. cbn [flow_bind]. rewrite Hpv. cbn [eval flow_bind].
  rewrite Hit. cbn [eval flow_bind]. rewrite Hci, Hcp. cbn [flow_bind].
  rewrite Hcv. cbn [eval flow_bind]. rewrite Hb. reflexivity.
Qed.

Lemma create_order_completed_not_bool_int :
  api_create_order
    (JObj [("customer_name", JStr "Tim"); ("customer_address", JStr "Vancouver");
           ("completed", JInt 0);
           ("products", JList [Sample.item "nut" (-3)]);
           ("date_created", JStr "2024-03-07 09:05"); ("date_processed", JNull)])
    Sample.nut_store
  = (Sample.nut_store, invalid_completed).
Proof.
  apply (create_order_completed_not_bool _ Sample.nut_store
           (JList [Sample.item "nut" (-3)]) (JInt 0)
           [Sample.item "nut" (-3)]); reflexivity.
Defined.

(** The line items built from a prefix, then the rest. *)
Lemma build_product_orders_app (st : Store) (pre rest : list json) :
  forall pos : list ProductsOrder,
    build_product_orders st pre = Next pos ->
    build_product_orders st (pre ++ rest)
    = flow_bind (build_product_orders st rest)
        (fun more => Next (pos ++ more)%list).
Proof.
  induction pre as [|x pre IH]; intros pos H.
  - injection H as <-. cbn [app].
    destruct (build_product_orders st rest); reflexivity.
  - cbn [app build_product_orders] in *.
    apply flow_bind_next in H as (k & Hk & H). rewrite Hk. cbn [flow_bind].
    apply flow_bind_next in H as (found & Hf & H). rewrite Hf. cbn [flow_bind].
    destruct found as [p|]; [|discriminate].
    apply flow_bind_next in H as (qv & Hqv & H). rewrite Hqv. cbn [flow_bind].
    apply flow_bind_next in H as (q & Hq & H). rewrite Hq. cbn [flow_bind].
    destruct (q <? 0); [discriminate|].
    apply flow_bind_next in H as (n & Hn & H). rewrite Hn. cbn [flow_bind].
    apply flow_bind_next in H as (pos' & Hpos & H). injection H as <-.
    rewrite (IH pos' Hpos).
    destruct (build_product_orders st rest); reflexivity.
Qed.

(** What the building loop does with the first line item whose quantity
    is not as wanted. *)
Lemma build_product_orders_first_bad (st : Store) (pre post : list json)
    (item : json) (pos : list ProductsOrder) (r : response) :
  build_product_orders st pre = Next pos ->
  check_products st (pre ++ item :: post) = Next tt ->
  (forall (k : json) (p : Product),
      (qv <- eval_try invalid_quantity (getitem item "quantity");;
       q <- eval_try invalid_quantity (to_int qv);;
       if q <? 0 then Done invalid_quantity
       else
         n <- eval_try invalid_quantity (key_of k);;
         product_orders <- build_product_orders st post;;
         Next ({| product_name := n; po_quantity := q |} :: product_orders))
      = Done r) ->
  build_product_orders st (pre ++ item :: post) = Done r.
Proof.
  intros Hpre Hcp Hbad.
  rewrite (build_product_orders_app st pre (item :: post) pos Hpre).
  destruct (check_products_next st _ Hcp item) as (n & p & Hn & Hp).
  { apply in_or_app. right. left. reflexivity. }
  assert (Hget : session_get_product st (JStr n) = Val (Some p))
    by (unfold session_get_product; cbn [key_of bind]; rewrite Hp; reflexivity).
  cbn [build_product_orders]. rewrite Hn. cbn [eval_try flow_bind].
  rewrite Hget. cbn [eval_try flow_bind].
  rewrite (Hbad (JStr n) p). reflexivity.
Qed.



(** X16. The check of keys lets a line item without [quantity] through, and
    the building loop then stops on [product["quantity"]]: order create
    and the replacement of line items end in an uncaught [KeyError], not
    in a 400, and write nothing. *)
Theorem order_missing_quantity (st : Store) (pre post : list json)
    (item : json) (pos : list ProductsOrder) :
  check_items (pre ++ item :: post) = Next tt ->
  check_products st (pre ++ item :: post) = Next tt ->
  build_product_orders st pre = Next pos ->
  getitem item "quantity" = Raise KeyError ->
  (forall order_id : Z,
      api_update_order order_id (JList (pre ++ item :: post)) st
      = (st, Crash KeyError))
  /\ (forall (data : json) (b : bool),
        require_keys data order_keys = Next tt ->
        getitem data "products" = Val (JList (pre ++ item :: post)) ->
        getitem data "completed" = Val (JBool b) ->
        api_create_order data st = (st, Crash KeyError)).
Proof.
  intros Hci Hcp Hpre Hqv.
  assert (Hb : build_product_orders st (pre ++ item :: post)
               = Done (Crash KeyError)).
  { apply (build_product_orders_first_bad st pre post item pos _ Hpre Hcp).
    intros k p. rewrite Hqv. reflexivity. }
  split.
  - intros order_id. unfold api_update_order, line_items.
    cbn [iterate eval flow_bind]. rewrite Hci, Hcp. cbn [flow_bind].
    rewrite Hb. reflexivity.
  - intros data b Hreq Hp Hc. unfold api_create_order, order_fields.
    rewrite Hreq. cbn [flow_bind]. rewrite Hp. cbn [iterate eval flow_bind].
    rewrite Hci, Hcp. cbn [flow_bind]. rewrite Hc.
    cbn [eval flow_bind is_bool]. rewrite Hb. reflexivity.
Qed.

Lemma order_missing_quantity_sample :
  (forall order_id : Z,
      api_update_order order_id
        (JList [JObj [("product_name", JStr "nut")]]) Sample.nut_order_store
      = (Sample.nut_order_store, Crash KeyError))
  /\ api_create_order
       (Sample.order_payload false [JObj [("product_name", JStr "nut")]])
       Sample.nut_order_store
     = (Sample.nut_order_store, Crash KeyError).
Proof.
  destruct (order_missing_quantity Sample.nut_order_store [] []
              (JObj [("product_name", JStr "nut")]) [])
    as [Hu Hc]; [reflexivity | reflexivity | reflexivity | reflexivity |].
  split; [exact Hu|]. apply (Hc _ false); reflexivity.
Defined.

(** X17. The replacement of line items refuses a payload that names a product
    the store does not have with the 400 for an unknown product, when
    its items are objects with a name and no key besides [product_name]
    and [quantity]; nothing is written. *)
Theorem update_order_unknown_product (order_id : Z) (st : Store)
    (items : list json) (item : json) (n : string) :
  check_items items = Next tt ->
  forallb named items = true ->
  In item items ->
  getitem item "product_name" = Val (JStr n) ->
  products st !! n = None ->
  api_update_order order_id (JList items) st = (st, unknown_product).
Proof.
  intros Hci Hnamed Hin Hn Hnone. unfold api_update_order, line_items.
  cbn [iterate eval flow_bind]. rewrite Hci. cbn [flow_bind].
  destruct (check_products_unknown st items item n Hin Hn Hnone)
    as (r & -> & _ & Hr).
  rewrite (Hr Hnamed). reflexivity.
Qed.

Lemma update_order_unknown_product_ghost :
  api_update_order 1 (JList [Sample.item "nut" 1; Sample.item "ghost" 2])
    Sample.nut_order_store
  = (Sample.nut_order_store, unknown_product).
Proof.
  apply (update_order_unknown_product 1 Sample.nut_order_store
           [Sample.item "nut" 1; Sample.item "ghost" 2]
           (Sample.item "ghost" 2) "ghost");
    [reflexivity | reflexivity | right; left; reflexivity | reflexivity
    | reflexivity].
Defined.

(** ** Replacement of line items, when it goes through *)





(** ** The script *)

(** X25. With fewer than five products in the store the script ends in
    [ValueError], and leaves behind the order it committed before it
    drew the sample: a new pending order with no line item.  The
    products are as they were. *)
Theorem script_few_products (now : datetime) (sample : list Product)
    (rolls : list Z) (st : Store) :
  (size (products st) < 5)%nat ->
  let k := next_order_id (orders st) in
  let r := create_order_script now sample rolls st in
  r.2 = Some ValueError
  /\ orders st !! k = None
  /\ api_get_order k r.1
     = (r.1, Reply 200 (OrderJson (script_order (strftime now) k)))
  /\ (forall k' : Z, k' <> k -> orders r.1 !! k' = orders st !! k')
  /\ products r.1 = products st.
Proof.
  intros Hfew k r. subst k r. unfold create_order_script.
  apply Nat.ltb_lt in Hfew. rewrite Hfew. cbn [fst snd id script_order].
  split; [reflexivity|]. split; [apply next_order_id_fresh|].
  split; [|split; [|reflexivity]].
  - unfold api_get_order. cbn [orders set_orders].
    rewrite lookup_insert_eq. reflexivity.
  - intros k' Hk. cbn [orders set_orders]. apply lookup_insert_ne. congruence.
Qed.

Lemma script_few_products_bolt :
  let k := next_order_id (orders Sample.bolt_store) in
  let r := create_order_script Sample.morning [] [] Sample.bolt_store in
  r.2 = Some ValueError
  /\ orders Sample.bolt_store !! k = None
  /\ api_get_order k r.1
     = (r.1, Reply 200 (OrderJson (script_order (strftime Sample.morning) k)))
  /\ (forall k' : Z,
        k' <> k -> orders r.1 !! k' = orders Sample.bolt_store !! k')
  /\ products r.1 = products Sample.bolt_store.
Proof.
  apply (script_few_products Sample.morning [] [] Sample.bolt_store).
  vm_compute. lia.
Defined.

(** X26. With five products or more, and whatever the random generator
    gives, the script leaves a new pending order with five line items on
    five different products of the store, each for a quantity from 1 to
    10, and does not touch the stock.  Processing that order afterwards
    answers with the order, completed. *)
Theorem script_then_process (now now' : datetime) (sample : list Product)
    (rolls : list Z) (st : Store) :
  (5 <= size (products st))%nat ->
  valid_draw st sample rolls = true ->
  let k := next_order_id (orders st) in
  let r := create_order_script now sample rolls st in
  exists o : Order,
    r.2 = None
    /\ orders st !! k = None
    /\ orders r.1 !! k = Some o
    /\ completed o = false
    /\ date_created o = JStr (strftime now)
    /\ date_processed o = JNull
    /\ length (order_products o) = 5%nat
    /\ wf_items (products r.1) (order_products o) = true
    /\ (forall po : ProductsOrder,
          In po (order_products o) -> 1 <= po_quantity po <= 10)
    /\ products r.1 = products st
    /\ exists o' : Order,
         (api_process_order k now' r.1).2 = Reply 200 (OrderJson o')
         /\ completed o' = true.
Proof.
  intros Hsize Hdraw k r. subst k r. unfold create_order_script.
  apply Nat.ltb_ge in Hsize. rewrite Hsize.
  unfold valid_draw in Hdraw.
  apply andb_true_iff in Hdraw as [Hdraw Hrolls].
  apply andb_true_iff in Hdraw as [Hdraw Hin].
  apply andb_true_iff in Hdraw as [Hdraw Hd].
  apply andb_true_iff in Hdraw as [Hls Hlr].
  apply Nat.eqb_eq in Hls, Hlr.
  destruct sample as [|p1 [|p2 [|p3 [|p4 [|p5 [|p6 sample]]]]]];
    try discriminate.
  destruct rolls as [|q1 [|q2 [|q3 [|q4 [|q5 [|q6 rolls]]]]]];
    try discriminate.
  clear Hls Hlr.
  set (items := zip_with association [p1; p2; p3; p4; p5] [q1; q2; q3; q4; q5]).
  set (k := next_order_id (orders st)).
  set (o := with_products items (script_order (strftime now) k)).
  assert (Hwf : wf_items (products st) items = true).
  { unfold wf_items. apply andb_true_iff. split; [exact Hd|].
    cbn [forallb] in Hin |- *. unfold in_stock. exact Hin. }
  assert (Hq : forall po : ProductsOrder,
             In po items -> 1 <= po_quantity po <= 10).
  { cbn [forallb] in Hrolls.
    repeat (apply andb_true_iff in Hrolls as [?H Hrolls]).
    repeat match goal with
      | H : (_ <=? _) && (_ <=? _) = true |- _ =>
          apply andb_true_iff in H as [?H ?H]
      | H : (_ <=? _) = true |- _ => apply Z.leb_le in H
      end.
    intros po Hpo. cbn in Hpo.
    destruct Hpo as [<-|[<-|[<-|[<-|[<-|[]]]]]]; cbn [po_quantity association];
      lia. }
  exists o. cbn [fst snd].
  split; [reflexivity|]. split; [apply next_order_id_fresh|].
  split; [cbn [orders set_orders id script_order]; apply lookup_insert_eq|].
  split; [reflexivity|]. split; [reflexivity|]. split; [reflexivity|].
  split; [reflexivity|]. split; [exact Hwf|]. split; [exact Hq|].
  split; [reflexivity|].
  eexists. split.
  - rewrite (process_order_wf k now' _ o).
    + reflexivity.
    + cbn [orders set_orders id script_order]. apply lookup_insert_eq.
    + exact Hwf.
  - reflexivity.
Qed.

Lemma script_then_process_hardware :
  let k := next_order_id (orders Hardware.store) in
  let r := create_order_script Sample.morning Hardware.shelf [3; 1; 10; 2; 7]
             Hardware.store in
  exists o : Order,
    r.2 = None
    /\ orders Hardware.store !! k = None
    /\ orders r.1 !! k = Some o
    /\ completed o = false
    /\ date_created o = JStr (strftime Sample.morning)
    /\ date_processed o = JNull
    /\ length (order_products o) = 5%nat
    /\ wf_items (products r.1) (order_products o) = true
    /\ (forall po : ProductsOrder,
          In po (order_products o) -> 1 <= po_quantity po <= 10)
    /\ products r.1 = products Hardware.store
    /\ exists o' : Order,
         (api_process_order k Sample.morning r.1).2 = Reply 200 (OrderJson o')
         /\ completed o' = true.
Proof.
  apply (script_then_process Sample.morning Sample.morning Hardware.shelf
           [3; 1; 10; 2; 7] Hardware.store); [vm_compute; lia | reflexivity].
Defined.
